(** * image_blending/show.py: display helpers, palette and point overlay

    A shallow embedding of [src/image_blending/show.py].  Python objects
    that the module mutates or allocates (numpy arrays) live in an
    explicit heap; the global numpy generator and the matplotlib canvas
    are the two other components of the world that the functions thread.
    Exceptions are an explicit outcome.  What numpy, OpenCV and
    matplotlib refuse is not decided here: their argument checking is a
    parameter of the development. *)

From Stdlib Require Import ZArith QArith Lia.
From Stdlib Require Import Floats.SpecFloat.
From stdpp Require Import gmap strings list.

Local Open Scope Z_scope.

(** ** Python values used by the module *)

(** The exceptions that can leave the functions of the module. *)
Inductive exn : Type :=
  | AssertionError
  | IndexError
  | ValueError
  | OverflowError
  | AttributeError
  | TypeError
  | MemoryError
  | CvError
  | OtherError (class_name : string).

(** The exceptions with which a library refuses a call.  The libraries
    are taken not to refuse a call with [AssertionError]: in this module
    that exception comes from the [assert] of [subplot_images] alone. *)
Inductive lib_exn : Type :=
  | LibTypeError
  | LibValueError
  | LibOverflowError
  | LibMemoryError
  | LibCvError
  | LibOther (class_name : string).

Definition thrown (e : lib_exn) : exn :=
  match e with
  | LibTypeError => TypeError
  | LibValueError => ValueError
  | LibOverflowError => OverflowError
  | LibMemoryError => MemoryError
  | LibCvError => CvError
  | LibOther name => OtherError name
  end.

Inductive outcome (A : Type) : Type :=
  | Ok (a : A)
  | Raise (e : exn).
Arguments Ok {A} a.
Arguments Raise {A} e.

(** A Python number: an [int] of arbitrary size, or a [float], that is an
    IEEE-754 binary64 datum: zero, infinity, NaN or [(-1)^s * m * 2^e]. *)
Inductive pynum : Type :=
  | PyInt (z : Z)
  | PyFloat (f : spec_float).

(** [int(x)].  On a float, CPython drops the fractional bits of the
    magnitude and keeps the sign; infinities raise [OverflowError] and
    NaN raises [ValueError]. *)
Definition py_int (x : pynum) : outcome Z :=
  match x with
  | PyInt z => Ok z
  | PyFloat S754_nan => Raise ValueError
  | PyFloat (S754_infinity _) => Raise OverflowError
  | PyFloat (S754_zero _) => Ok 0
  | PyFloat (S754_finite s m e) =>
      let magnitude := Z.shiftl (Z.pos m) e in
      Ok (if s then - magnitude else magnitude)
  end.

(** The exact rational value of a finite float. *)
Definition float_value (s : bool) (m : positive) (e : Z) : Q :=
  let sm := if s then Z.neg m else Z.pos m in
  match e with
  | Z.neg k => sm # (2 ^ k)%positive
  | _ => inject_Z (sm * 2 ^ e)
  end.

(** [len(l)] *)
Definition len {A} (l : list A) : Z := Z.of_nat (length l).

(** [l[:n]] with Python's reading of a negative bound. *)
Definition slice_to {A} (l : list A) (n : Z) : list A :=
  if n <? 0 then take (Z.to_nat (len l + n)) l else take (Z.to_nat n) l.

(** [l[i]] for an index that the loops produce ([i >= 0] there; a negative
    index counts from the end). *)
Definition py_index {A} (l : list A) (i : Z) : outcome A :=
  let j := if i <? 0 then len l + i else i in
  if j <? 0 then Raise IndexError
  else match l !! Z.to_nat j with
       | Some a => Ok a
       | None => Raise IndexError
       end.

(** A color is a triple of channel intensities. *)
Definition rgb : Type := Z * Z * Z.

(** A decoded image: rows of pixels, a pixel being its channel samples
    (unsigned 8-bit).  [a !! y] is row [y], [row !! x] the pixel in
    column [x]. *)
Abbreviation ndarray := (list (list (list Z))) (only parsing).

Definition pixel (a : ndarray) (x y : nat) : option (list Z) :=
  a !! y ≫= (.!! x).

(** The extents of an array: the channel count of every pixel, row by
    row.  Two arrays of equal extents have the same shape. *)
Definition extents (a : ndarray) : list (list nat) :=
  (fun row : list (list Z) => length <$> row) <$> a.

(** ** The world: heap of arrays, numpy's generator, matplotlib's canvas *)

Abbreviation loc := positive (only parsing).

(** The calls made to matplotlib, in call order; a call that matplotlib
    refuses is the last one. *)
Inductive plot_event : Type :=
  | Figure (figsize : pynum * pynum)
  | Title (t : option string)
  | AxisOff
  | Subplot (n_rows n_columns index : Z)
  | TightLayout (w_pad h_pad : pynum)
  | Imshow (image : option loc) (cmap : option string)
  | Show.

Record world : Type := World {
  heap : gmap loc ndarray;   (* the arrays alive, by reference *)
  rng : nat;                 (* how many raw draws the generator has made *)
  canvas : list plot_event   (* plotting calls made so far *)
}.

Definition set_heap (h : gmap loc ndarray) (w : world) : world :=
  World h (rng w) (canvas w).
Definition set_rng (n : nat) (w : world) : world :=
  World (heap w) n (canvas w).
Definition emit (e : plot_event) (w : world) : world :=
  World (heap w) (rng w) (canvas w ++ [e]).

(** Computations: a state monad over the world, with exceptions. *)
Definition M (A : Type) : Type := world -> outcome A * world.

Definition ret {A} (a : A) : M A := fun w => (Ok a, w).
Definition raise {A} (e : exn) : M A := fun w => (Raise e, w).
Definition bind {A B} (m : M A) (k : A -> M B) : M B :=
  fun w => match m w with
           | (Ok a, w') => k a w'
           | (Raise e, w') => (Raise e, w')
           end.
Definition lift {A} (o : outcome A) : M A := fun w => (o, w).

Declare Scope py_scope.
Delimit Scope py_scope with py.
Notation "x <- m ;; k" := (bind m (fun x => k))
  (at level 100, m at next level, right associativity) : py_scope.
Notation "m ;;; k" := (bind m (fun _ => k))
  (at level 100, right associativity) : py_scope.
Local Open Scope py_scope.

(** [assert b] *)
Definition py_assert (b : bool) : M unit :=
  if b then ret tt else raise AssertionError.

(** A new array object holding [a]; its reference is fresh. *)
Definition alloc (a : ndarray) : M loc :=
  fun w => let l := fresh (dom (heap w)) in (Ok l, set_heap (<[l := a]> (heap w)) w).

(** ** Module constants *)

Definition SIZE_CONSTANT : Z := 10000.

Definition COLORS : list rgb :=
  [ (250, 50, 50);
    (50, 250, 50);
    (50, 50, 250);
    (250, 250, 50);
    (250, 50, 250);
    (50, 250, 250);
    (20, 150, 250);
    (150, 20, 250);
    (250, 20, 150);
    (250, 150, 20);
    (20, 250, 150);
    (150, 250, 20) ].

(** An argument of a call: left out, or passed. *)
Inductive arg (A : Type) : Type :=
  | Omitted
  | Given (a : A).
Arguments Omitted {A}.
Arguments Given {A} a.

Definition with_default {A} (d : A) (x : arg A) : A :=
  match x with Omitted => d | Given a => a end.

(** An image parameter: a path, or an array already decoded. *)
Inductive image_arg : Type :=
  | Path (s : string)
  | Array (l : loc).

(** The [titles] parameter of the grid: [None], one string, or a list. *)
Inductive titles_arg : Type :=
  | TitlesNone
  | TitlesStr (s : string)
  | TitlesList (l : list (option string)).

(** The keyword parameters of [draw_points] as a caller may pass them. *)
Record draw_points_kwargs : Type := Kwargs {
  kw_figsize : arg (pynum * pynum);
  kw_diameter : arg Z;
  kw_color : arg (option rgb);
  kw_inline : arg bool;
  kw_cmap : arg (option string);
  kw_axis : arg bool
}.

(** ** Sample inputs *)

(** A tape of raw draws, a file system with one readable image, and the
    Euclidean disk as the circle's rasterisation. *)
Definition sample_tape (i : nat) : Z := 300 * Z.of_nat i + 254.

Definition black (h w_ : nat) : list (list (list Z)) :=
  replicate h (replicate w_ [0; 0; 0]).

Definition sample_files (path : string) : option (list (list (list Z))) :=
  if String.eqb path "a.png" then Some (black 2 2) else None.

Definition round_disk (cx cy r x y : Z) : bool :=
  (x - cx) ^ 2 + (y - cy) ^ 2 <=? r ^ 2.

(** A world with one 3 x 4 black image, at reference 1. *)
Definition sample_world : world := World {[ 1%positive := black 3 4 ]} 0 [].

(** 2.75, 0.75, -2.75 and 3.5 as floats. *)
Definition f2_75 : pynum := PyFloat (S754_finite false 11 (-2)).
Definition f0_75 : pynum := PyFloat (S754_finite false 3 (-2)).
Definition fm2_75 : pynum := PyFloat (S754_finite true 11 (-2)).
Definition f3_5 : pynum := PyFloat (S754_finite false 7 (-1)).

Definition sample_points : list (pynum * pynum) :=
  [ (f2_75, f0_75); (f3_5, PyFloat (S754_zero true)) ].

Definition sample_figsize : pynum * pynum := (PyInt 20, PyInt 30).

Definition sample_kwargs : draw_points_kwargs :=
  Kwargs Omitted (Given 0) Omitted (Given false) Omitted Omitted.

(** Libraries as the sample runs meet them.  numpy makes up to 1000 rows.
    OpenCV refuses a centre or radius that is no C int, a negative
    radius, an image without pixels and one of more than four channels.
    matplotlib refuses [imshow] of [None] or of an image whose channels
    are not 1, 3 or 4, and a [subplot] outside the grid. *)
Definition fits_int (z : Z) : bool := (- 2 ^ 31 <=? z) && (z <? 2 ^ 31).

Definition sample_np_capacity : positive := 1000.

Definition sample_np_error (rows : nat) : lib_exn := LibValueError.

Definition sample_cv_rejects (a : list (list (list Z))) (center : Z * Z)
    (radius : Z) (c : rgb) : option lib_exn :=
  if negb (fits_int center.1 && fits_int center.2 && fits_int radius)
  then Some LibOverflowError
  else if radius <? 0 then Some LibCvError
  else match extents a with
       | (channels :: _) :: _ =>
           if ((1 <=? channels) && (channels <=? 4))%nat then None
           else Some LibCvError
       | _ => Some LibCvError
       end.

Definition sample_plt_rejects (w : world) (e : plot_event) : option lib_exn :=
  match e with
  | Imshow None _ => Some LibTypeError
  | Imshow (Some l) _ =>
      match extents <$> heap w !! l with
      | Some ((channels :: _) :: _) =>
          if ((channels =? 1) || (channels =? 3) || (channels =? 4))%nat then None
          else Some LibTypeError
      | _ => Some LibTypeError
      end
  | Subplot n_rows n_columns i =>
      if (0 <? n_rows) && (0 <? n_columns) && (1 <=? i) && (i <=? n_rows * n_columns)
      then None else Some LibValueError
  | _ => None
  end.

Section Show.

(** ** The libraries the module calls *)

(** numpy's generator: [tape i] is its [i]-th raw draw. *)
Variable tape : nat -> Z.

(** OpenCV's decoder: what [cv2.imread] makes of a path ([None] when the
    file cannot be read). *)
Variable files : string -> option ndarray.

(** OpenCV's rasterisation of a filled circle: [disk cx cy r x y] tells
    whether pixel (column [x], row [y]) belongs to the circle of centre
    [(cx, cy)] and radius [r]. *)
Variable disk : Z -> Z -> Z -> Z -> Z -> bool.

(** numpy's limits: [np_capacity] is the largest number of rows of three
    integers it makes (it makes one at least), and [np_error rows] is the
    exception it raises when asked for more. *)
Variable np_capacity : positive.
Variable np_error : nat -> lib_exn.

(** OpenCV's argument checking: [cv_rejects a center radius color] is the
    exception [cv2.circle(image, center, radius, color, -1)] raises on an
    image that holds [a], if it refuses the call. *)
Variable cv_rejects : ndarray -> Z * Z -> Z -> rgb -> option lib_exn.

(** matplotlib's argument checking: [plt_rejects w e] is the exception
    the call [e] raises in the world [w] that the earlier calls left, if
    matplotlib refuses it. *)
Variable plt_rejects : world -> plot_event -> option lib_exn.

(** A call to matplotlib: it is made, and it raises when refused. *)
Definition plot (e : plot_event) : M unit :=
  fun w => match plt_rejects w e with
           | Some err => (Raise (thrown err), emit e w)
           | None => (Ok tt, emit e w)
           end.

(** [np.random.randint(low, high)]: one integer of the half-open interval
    [low, high) (numpy: "from low (inclusive) to high (exclusive)"). *)
Definition randint (low high : Z) : M Z :=
  fun w => (Ok (low + tape (rng w) `mod` (high - low)), set_rng (S (rng w)) w).

(** The rows of [np.random.randint(low, high, (rows, 3))]: they are
    filled in order, every entry by a draw of its own.  A row of three is
    written as a triple. *)
Fixpoint fill_rows (low high : Z) (rows : nat) : M (list rgb) :=
  match rows with
  | O => ret []
  | S k =>
      c0 <- randint low high ;;
      c1 <- randint low high ;;
      c2 <- randint low high ;;
      rest <- fill_rows low high k ;;
      ret ((c0, c1, c2) :: rest)
  end.

(** [np.random.randint(low, high, (rows, 3)).tolist()]: numpy raises,
    before any draw, on a size beyond its limits. *)
Definition randint_rows (low high : Z) (rows : nat) : M (list rgb) :=
  if (Pos.to_nat np_capacity <? rows)%nat
  then raise (thrown (np_error rows))
  else fill_rows low high rows.

(** [cv2.imread(path)] *)
Definition imread (path : string) : M (option loc) :=
  match files path with
  | Some a => l <- alloc a ;; ret (Some l)
  | None => ret None
  end.

(** [image.copy()]; on [None] the attribute is missing.  A reference held
    by Python denotes a live array, so the lookup finds one. *)
Definition ndarray_copy (image : option loc) : M loc :=
  match image with
  | None => raise AttributeError
  | Some l => fun w =>
      match heap w !! l with
      | Some a => alloc a w
      | None => (Raise AttributeError, w)
      end
  end.

(** The sample an 8-bit image stores for a color component: OpenCV
    converts the component to a C int, which gives the least int for a
    component beyond the int range, and clamps the int to 0..255.  So a
    component of 2^31 or more is stored as 0, like a negative one. *)
Definition saturate (v : Z) : Z :=
  if 2 ^ 31 <=? v then 0 else Z.max 0 (Z.min 255 v).

(** A color as OpenCV's 4-component scalar; the missing one is 0. *)
Definition scalar (c : rgb) (k : nat) : Z :=
  match c, k with
  | (c0, _, _), 0%nat => c0
  | (_, c1, _), 1%nat => c1
  | (_, _, c2), 2%nat => c2
  | _, _ => 0
  end.

Definition paint (c : rgb) (px : list Z) : list Z :=
  imap (fun k _ => saturate (scalar c k)) px.

(** The pixels of a filled circle, clipped to the image, take the color. *)
Definition stamp (cx cy r : Z) (c : rgb) (a : ndarray) : ndarray :=
  imap (fun y row =>
    imap (fun x px =>
      if disk cx cy r (Z.of_nat x) (Z.of_nat y) then paint c px else px) row) a.

(** [cv2.circle(image, center, radius, color, -1)]: draws into the array
    [image] refers to, unless OpenCV refuses the arguments.  The loop of
    [draw_points] always has a color at hand when it calls (with
    [color=None] it rebinds [current_color] first), so the first branch
    is not reached from the module. *)
Definition circle (image : loc) (center : Z * Z) (radius : Z)
    (col : option rgb) : M unit :=
  match col with
  | None => raise TypeError
  | Some c => fun w =>
      match heap w !! image with
      | Some a =>
          match cv_rejects a center radius c with
          | Some err => (Raise (thrown err), w)
          | None =>
              (Ok tt,
               set_heap (<[image := stamp center.1 center.2 radius c a]> (heap w)) w)
          end
      | None => (Raise CvError, w)
      end
  end.

(** ** The module's functions *)

(** [_read_image_if_need]: resolves every path among its arguments. *)
Fixpoint _read_image_if_need (args : list image_arg) : M (list (option loc)) :=
  match args with
  | [] => ret []
  | image :: rest =>
      image <- match image with
               | Path s => imread s
               | Array l => ret (Some l)
               end ;;
      images <- _read_image_if_need rest ;;
      ret (image :: images)
  end.

(** [get_colors(n_colors)] *)
Definition get_colors (n_colors : Z) : M (list rgb) :=
  if n_colors <=? len COLORS then
    ret (slice_to COLORS n_colors)
  else
    random_colors <- randint_rows 0 255 (Z.to_nat (n_colors - len COLORS)) ;;
    ret (COLORS ++ random_colors).

(** [show_image(image, figsize, title, cmap, axis)] *)
Definition show_image (image : image_arg) (figsize : pynum * pynum)
    (title : option string) (cmap : option string) (axis : bool) : M unit :=
  images <- _read_image_if_need [image] ;;
  image <- lift (py_index images 0) ;;
  plot (Figure figsize) ;;;
  plot (Title title) ;;;
  (if negb axis then plot AxisOff else ret tt) ;;;
  plot (Imshow image cmap) ;;;
  plot Show.

(** The body of the loop of [subplot_images], over
    [enumerate(images, start=1)] from position [i] on. *)
Fixpoint subplot_loop (n_rows n_columns : Z) (titles : list (option string))
    (cmap : option string) (axis : bool) (layout_pad : pynum * pynum)
    (i : Z) (images : list (option loc)) : M unit :=
  match images with
  | [] => ret tt
  | image :: rest =>
      plot (Subplot n_rows n_columns i) ;;;
      t <- lift (py_index titles (i - 1)) ;;
      plot (Title t) ;;;
      (if negb axis then plot AxisOff else ret tt) ;;;
      plot (TightLayout layout_pad.1 layout_pad.2) ;;;
      plot (Imshow image cmap) ;;;
      subplot_loop n_rows n_columns titles cmap axis layout_pad (i + 1) rest
  end.

(** [subplot_images(images, n_rows, n_columns, figsize, titles, cmap, axis,
    layout_pad)] *)
Definition subplot_images (images : list image_arg) (n_rows n_columns : Z)
    (figsize : pynum * pynum) (titles : titles_arg) (cmap : option string)
    (axis : bool) (layout_pad : pynum * pynum) : M unit :=
  py_assert (len images <=? n_rows * n_columns) ;;;
  let titles :=
    match titles with
    | TitlesNone => replicate (length images) None
    | TitlesStr s => replicate (length images) (Some s)
    | TitlesList l => l
    end in
  plot (Figure figsize) ;;;
  images <- _read_image_if_need images ;;
  subplot_loop n_rows n_columns titles cmap axis layout_pad 1 images ;;;
  plot Show.

(** The loop of [draw_points], over [enumerate(points)] from index [idx]
    on; [current_color] is the variable the loop body reassigns. *)
Fixpoint draw_loop (image : loc) (diameter : Z) (color : option rgb)
    (colors : list rgb) (idx : Z) (points : list (pynum * pynum))
    (current_color : option rgb) : M unit :=
  match points with
  | [] => ret tt
  | (x, y) :: rest =>
      current_color <-
        match color with
        | None => c <- lift (py_index colors idx) ;; ret (Some c)
        | Some _ => ret current_color
        end ;;
      cx <- lift (py_int x) ;;
      cy <- lift (py_int y) ;;
      circle image (cx, cy) diameter current_color ;;;
      draw_loop image diameter color colors (idx + 1) rest current_color
  end.

(** [draw_points(image, points, figsize, diameter, color, inline, cmap,
    axis)], every parameter resolved.  [color = None] is Python's [None]. *)
Definition draw_points (image : image_arg) (points : list (pynum * pynum))
    (figsize : pynum * pynum) (diameter : Z) (color : option rgb)
    (inline : bool) (cmap : option string) (axis : bool) : M (option loc) :=
  image <- match image with
           | Path s => imread s
           | Array l => ret (Some l)
           end ;;
  image <- ndarray_copy image ;;
  let current_color := color in
  colors <- match color with
            | None => get_colors (len points)
            | Some _ => ret []   (* [colors] stays unbound and is not read *)
            end ;;
  draw_loop image diameter color colors 0 points current_color ;;;
  if inline then
    plot (Figure figsize) ;;;
    (if negb axis then plot AxisOff else ret tt) ;;;
    plot (Imshow (Some image) cmap) ;;;
    plot Show ;;;
    ret None
  else
    ret (Some image).

(** A call of [draw_points]: the [def] line's defaults fill what the
    caller left out. *)
Definition call_draw_points (image : image_arg)
    (points : list (pynum * pynum)) (kw : draw_points_kwargs) : M (option loc) :=
  draw_points image points
    (with_default (PyInt 20, PyInt 30) (kw_figsize kw))
    (with_default 10 (kw_diameter kw))
    (with_default (Some (50, 250, 50)) (kw_color kw))
    (with_default true (kw_inline kw))
    (with_default None (kw_cmap kw))
    (with_default false (kw_axis kw)).

(** ** Vocabulary of the statements: the palette *)

(** The value the [i]-th raw draw yields under [randint low high]. *)
Definition drawn (low high : Z) (i : nat) : Z :=
  low + tape i `mod` (high - low).

(** The rows [randint_rows] returns when the generator stands at draw
    [start]. *)
Fixpoint drawn_rows (low high : Z) (start rows : nat) : list rgb :=
  match rows with
  | O => []
  | S k =>
      (drawn low high start, drawn low high (S start), drawn low high (S (S start)))
      :: drawn_rows low high (3 + start) k
  end.

(** The palette of [n] colors made when the generator stands at [start]. *)
Definition palette (n start : nat) : list rgb :=
  take n COLORS ++ drawn_rows 0 255 start (n - 12).

(** ** Vocabulary of the statements: stamping *)

(** The pixel a point is drawn at, when both coordinates convert. *)
Definition center_of (p : pynum * pynum) : option (Z * Z) :=
  match py_int p.1, py_int p.2 with
  | Ok cx, Ok cy => Some (cx, cy)
  | _, _ => None
  end.

Definition centers (points : list (pynum * pynum)) : list (Z * Z) :=
  omap center_of points.

(** OpenCV accepts a circle of centre [ctr], radius [d] and color [col]
    on the arrays of the shape of [a]. *)
Definition cv_accepts (a : ndarray) (d : Z) (col : rgb) (ctr : Z * Z) : Prop :=
  forall a', extents a' = extents a -> cv_rejects a' ctr d col = None.

(** A point that can be stamped on [a] in color [col]: its coordinates
    convert, and OpenCV accepts the circle. *)
Definition stampable (a : ndarray) (d : Z) (p : pynum * pynum) (col : rgb) : Prop :=
  exists ctr, center_of p = Some ctr /\ cv_accepts a d col ctr.

(** Pixel (column [x], row [y]) lies in the marker of diameter parameter
    [d] centred at [c]. *)
Definition covers (d : Z) (x y : nat) (c : Z * Z) : bool :=
  disk c.1 c.2 d (Z.of_nat x) (Z.of_nat y).

(** Some point of the list has its marker over the pixel. *)
Definition marked (d : Z) (points : list (pynum * pynum)) (x y : nat) : bool :=
  existsb (fun p => match center_of p with
                    | Some c => covers d x y c
                    | None => false
                    end) points.

(** Stamping marks, each a centre with its color, one after the other. *)
Definition overlay (d : Z) (marks : list ((Z * Z) * rgb)) (a : ndarray) : ndarray :=
  foldl (fun a m => stamp m.1.1 m.1.2 d m.2 a) a marks.

(** The sample values of a pixel once marks were stamped over it: the
    last mark that covers it decides. *)
Definition stamped_pixel (d : Z) (marks : list ((Z * Z) * rgb)) (x y : nat)
    (px : list Z) : list Z :=
  match last (filter (fun m => covers d x y m.1 = true) marks) with
  | Some m => paint m.2 px
  | None => px
  end.

(** The color the loop body draws with at index [idx]. *)
Definition next_color (color : option rgb) (colors : list rgb) (idx : Z)
    (current_color : option rgb) : outcome (option rgb) :=
  match color with
  | None => match py_index colors idx with
            | Ok c => Ok (Some c)
            | Raise e => Raise e
            end
  | Some _ => Ok current_color
  end.

(** The plotting calls of the [inline] branch. *)
Definition inline_events (figsize : pynum * pynum) (cmap : option string)
    (axis : bool) (image : loc) : list plot_event :=
  [Figure figsize] ++ (if negb axis then [AxisOff] else [])
    ++ [Imshow (Some image) cmap; Show].

(** The marks a call stamps: every point's centre, with the one color
    given, or else with the palette color of the point's index. *)
Definition marks_of (color : option rgb) (points : list (pynum * pynum))
    (start : nat) : list ((Z * Z) * rgb) :=
  zip (centers points)
      match color with
      | Some c => replicate (length points) c
      | None => palette (length points) start
      end.

(** The world once the points are stamped: a new array holds the marked
    image, and the generator has made the draws of the palette. *)
Definition stamped_world (w : world) (a : ndarray) (d : Z) (color : option rgb)
    (points : list (pynum * pynum)) : world :=
  World (<[fresh (dom (heap w)) := overlay d (marks_of color points (rng w)) a]> (heap w))
        (match color with
         | None => rng w + 3 * (length points - 12)
         | Some _ => rng w
         end)%nat
        (canvas w).

(** The colors of the points: the one given, or the palette's. *)
Definition colors_for (color : option rgb) (n start : nat) : list rgb :=
  match color with
  | Some c => replicate n c
  | None => palette n start
  end.

(** numpy can make the palette of [n] colors, when one is needed. *)
Definition palette_fits (color : option rgb) (n : nat) : Prop :=
  color = None -> (n - 12 <= Pos.to_nat np_capacity)%nat.

(** ** Vocabulary of the statements: truncation *)

(** The rational value of a number, when it is finite. *)
Definition num_value (x : pynum) : option Q :=
  match x with
  | PyInt z => Some (inject_Z z)
  | PyFloat (S754_zero _) => Some (inject_Z 0)
  | PyFloat (S754_finite s m e) => Some (float_value s m e)
  | PyFloat _ => None
  end.

(** [n] is [v] with its fractional part dropped: the integer next to [v]
    on the side of zero. *)
Definition truncation (v : Q) (n : Z) : Prop :=
  ((0 <= v)%Q -> (inject_Z n <= v)%Q /\ (v < inject_Z n + 1)%Q) /\
  ((v <= 0)%Q -> (inject_Z n - 1 < v)%Q /\ (v <= inject_Z n)%Q).

(** ** Vocabulary of the statements: the grid display *)

(** Plotting calls added to the canvas. *)
Definition emits (evs : list plot_event) (w : world) : world :=
  World (heap w) (rng w) (canvas w ++ evs).

(** matplotlib accepts the calls [evs], made one after the other from
    the world [w]. *)
Fixpoint plt_accepts (w : world) (evs : list plot_event) : Prop :=
  match evs with
  | [] => True
  | e :: rest => plt_rejects w e = None /\ plt_accepts (emit e w) rest
  end.

(** The calls [evs] in a row, up to the first one refused. *)
Fixpoint plot_all (evs : list plot_event) : M unit :=
  match evs with
  | [] => ret tt
  | e :: rest => plot e ;;; plot_all rest
  end.


(** The plotting calls of one pass through the loop body. *)
Definition slot_events (n_rows n_columns : Z) (cmap : option string)
    (axis : bool) (layout_pad : pynum * pynum) (i : Z) (t : option string)
    (image : option loc) : list plot_event :=
  [Subplot n_rows n_columns i; Title t]
    ++ (if negb axis then [AxisOff] else [])
    ++ [TightLayout layout_pad.1 layout_pad.2; Imshow image cmap].

(** The calls of the slots rendered from position [i] on, one title and
    one image per slot, as far as both last. *)
Fixpoint grid_events (n_rows n_columns : Z) (cmap : option string)
    (axis : bool) (layout_pad : pynum * pynum) (i : Z)
    (ts : list (option string)) (images : list (option loc)) : list plot_event :=
  match ts, images with
  | t :: ts', image :: rest =>
      slot_events n_rows n_columns cmap axis layout_pad i t image
        ++ grid_events n_rows n_columns cmap axis layout_pad (i + 1) ts' rest
  | _, _ => []
  end.

(** The titles set on a canvas, in order. *)
Definition titles_of (evs : list plot_event) : list (option string) :=
  omap (fun e => match e with Title t => Some t | _ => None end) evs.

(** The list the loop indexes: a lone title (or [None]) repeated once per
    image, a list as it is. *)
Definition slot_titles (titles : titles_arg) (n : nat) : list (option string) :=
  match titles with
  | TitlesNone => replicate n None
  | TitlesStr s => replicate n (Some s)
  | TitlesList l => l
  end.

(** The [titles] argument that carries one title, or none. *)
Definition single_title (t : option string) : titles_arg :=
  match t with
  | None => TitlesNone
  | Some s => TitlesStr s
  end.

(** ** Vocabulary of the statements: calls with keywords *)

(** The keywords of a call, with the [color] entry replaced. *)
Definition with_color (color : arg (option rgb)) (kw : draw_points_kwargs)
    : draw_points_kwargs :=
  Kwargs (kw_figsize kw) (kw_diameter kw) color (kw_inline kw) (kw_cmap kw)
         (kw_axis kw).

(** ** Vocabulary of the statements: decoding, slots, bad coordinates *)

(** A color whose three channels are 8-bit intensities. *)
Definition valid_color (c : rgb) : Prop :=
  0 <= c.1.1 <= 255 /\ 0 <= c.1.2 <= 255 /\ 0 <= c.2 <= 255.

(** How one argument of [_read_image_if_need] shows in the result: an
    array by its own reference; a path by a reference that did not exist
    in [h0] and holds the decoded image in [h], or by [None] when the
    file cannot be read. *)
Definition resolves (h0 h : gmap loc ndarray) (image : image_arg)
    (result : option loc) : Prop :=
  match image with
  | Array l => result = Some l
  | Path s =>
      match files s with
      | Some a => exists l, result = Some l /\ h0 !! l = None /\ h !! l = Some a
      | None => result = None
      end
  end.

(** The references made for the paths among the arguments. *)
Fixpoint decoded_refs (args : list image_arg) (imgs : list (option loc))
    : list loc :=
  match args, imgs with
  | Path _ :: args', Some l :: imgs' => l :: decoded_refs args' imgs'
  | _ :: args', _ :: imgs' => decoded_refs args' imgs'
  | _, _ => []
  end.

(** The slot numbers selected on a canvas, and the images shown, in
    order. *)
Definition subplots_of (evs : list plot_event) : list Z :=
  omap (fun e => match e with Subplot _ _ i => Some i | _ => None end) evs.

Definition imshows_of (evs : list plot_event) : list (option loc) :=
  omap (fun e => match e with Imshow image _ => Some image | _ => None end) evs.

(** The exception [int] raises on a point, on [x] first, then on [y]. *)
Definition bad_coordinate (p : pynum * pynum) : option exn :=
  match py_int p.1 with
  | Raise e => Some e
  | Ok _ => match py_int p.2 with
            | Raise e => Some e
            | Ok _ => None
            end
  end.

(** * Lemmas

    ** The palette *)

Lemma thrown_not_assertion err : thrown err <> AssertionError.
Proof. by destruct err. Qed.

Lemma fill_rows_run low high k w :
  fill_rows low high k w =
    (Ok (drawn_rows low high (rng w) k), set_rng (rng w + 3 * k) w).
Proof.
  revert w. induction k as [|k IH]; intros w; simpl.
  - unfold ret, set_rng. destruct w; simpl. do 2 f_equal. lia.
  - unfold bind at 1 2 3 4. unfold randint at 1 2 3. simpl.
    rewrite IH. unfold ret, set_rng; simpl. do 2 f_equal. lia.
Qed.

Lemma randint_rows_run low high k w :
  (k <= Pos.to_nat np_capacity)%nat ->
  randint_rows low high k w =
    (Ok (drawn_rows low high (rng w) k), set_rng (rng w + 3 * k) w).
Proof.
  intros Hk. unfold randint_rows.
  destruct (Nat.ltb_spec (Pos.to_nat np_capacity) k); [lia|].
  apply fill_rows_run.
Qed.

Lemma randint_rows_refused low high k w :
  (Pos.to_nat np_capacity < k)%nat ->
  randint_rows low high k w = (Raise (thrown (np_error k)), w).
Proof.
  intros Hk. unfold randint_rows.
  by destruct (Nat.ltb_spec (Pos.to_nat np_capacity) k); [|lia].
Qed.

Lemma length_drawn_rows low high start k :
  length (drawn_rows low high start k) = k.
Proof. revert start. induction k; intros; simpl; auto. Qed.

Lemma drawn_range low high i :
  low < high -> low <= drawn low high i < high.
Proof.
  intros H. unfold drawn.
  pose proof (Z.mod_pos_bound (tape i) (high - low)). lia.
Qed.

Lemma drawn_rows_range low high start k :
  low < high ->
  Forall (fun c : rgb => (low <= c.1.1 < high) /\ (low <= c.1.2 < high)
                         /\ (low <= c.2 < high))
         (drawn_rows low high start k).
Proof.
  intros H. revert start.
  induction k as [|k IH]; intros start; simpl; constructor; auto.
  simpl. auto using drawn_range.
Qed.

Lemma get_colors_run (n : nat) w :
  (n - 12 <= Pos.to_nat np_capacity)%nat ->
  get_colors (Z.of_nat n) w =
    (Ok (palette n (rng w)), set_rng (rng w + 3 * (n - 12)) w).
Proof.
  intros Hfit. unfold get_colors, palette. change (len COLORS) with 12.
  destruct (Z.leb_spec (Z.of_nat n) 12) as [Hle|Hgt].
  - replace (n - 12)%nat with 0%nat by lia. simpl drawn_rows.
    rewrite app_nil_r. unfold slice_to.
    destruct (Z.ltb_spec (Z.of_nat n) 0); [lia|].
    rewrite Nat2Z.id. unfold ret, set_rng. destruct w; simpl.
    do 2 f_equal. lia.
  - unfold bind.
    replace (Z.to_nat (Z.of_nat n - 12)) with (n - 12)%nat by lia.
    rewrite randint_rows_run by done.
    unfold ret. rewrite (take_ge COLORS n) by (simpl; lia). reflexivity.
Qed.

(** However [get_colors] ends, it changes nothing but the generator, and
    nothing at all when it raises. *)
Lemma get_colors_frame n w r w' :
  get_colors n w = (r, w') ->
  heap w' = heap w /\ canvas w' = canvas w /\
  (forall e, r = Raise e -> w' = w /\ e <> AssertionError).
Proof.
  unfold get_colors. change (len COLORS) with 12.
  destruct (n <=? 12).
  - unfold ret. intros [= <- <-]. done.
  - unfold bind, randint_rows.
    destruct (_ <? _)%nat.
    + unfold raise. intros [= <- <-]. split; [done|]. split; [done|].
      intros e [= <-]. split; [done|apply thrown_not_assertion].
    + rewrite fill_rows_run. unfold ret. intros [= <- <-]. done.
Qed.

Lemma length_palette n start : length (palette n start) = n.
Proof.
  unfold palette. rewrite length_app, length_take, length_drawn_rows.
  change (length COLORS) with 12%nat. lia.
Qed.

Lemma palette_fixed n start (i : nat) :
  (i < n)%nat -> (i < 12)%nat -> palette n start !! i = COLORS !! i.
Proof.
  intros Hn Hi. unfold palette.
  rewrite lookup_app_l by (rewrite length_take; change (length COLORS) with 12%nat; lia).
  by rewrite lookup_take_lt.
Qed.

Lemma palette_random n start (i : nat) :
  (12 <= i < n)%nat ->
  palette n start !! i =
    Some (drawn 0 255 (start + 3 * (i - 12)),
          drawn 0 255 (start + 3 * (i - 12) + 1),
          drawn 0 255 (start + 3 * (i - 12) + 2)).
Proof.
  intros Hi. unfold palette.
  rewrite lookup_app_r
    by (rewrite length_take; change (length COLORS) with 12%nat; lia).
  rewrite length_take. change (length COLORS) with 12%nat.
  replace (i - n `min` 12)%nat with (i - 12)%nat by lia.
  assert (Hk : (i - 12 < n - 12)%nat) by lia.
  generalize dependent (i - 12)%nat. intros j.
  generalize (n - 12)%nat. intros k. revert start j.
  induction k as [|k IH]; intros start j Hj; [lia|].
  destruct j as [|j]; simpl.
  - do 3 f_equal; f_equal; lia.
  - rewrite IH by lia. do 3 f_equal; f_equal; lia.
Qed.

(** ** What stamping does to an array *)

Lemma pixel_stamp cx cy r c a x y :
  pixel (stamp cx cy r c a) x y =
    (fun px => if covers r x y (cx, cy) then paint c px else px) <$> pixel a x y.
Proof.
  unfold pixel, stamp, covers. rewrite list_lookup_imap.
  destruct (a !! y) as [row|]; simpl; [|done].
  by rewrite list_lookup_imap.
Qed.

Lemma extents_stamp cx cy r c a : extents (stamp cx cy r c a) = extents a.
Proof.
  unfold extents, stamp. apply list_eq. intros y.
  rewrite !list_lookup_fmap, list_lookup_imap.
  destruct (a !! y) as [row|]; simpl; [|done]. f_equal.
  apply list_eq. intros x.
  rewrite !list_lookup_fmap, list_lookup_imap.
  destruct (row !! x) as [px|]; simpl; [|done]. f_equal.
  destruct (disk _ _ _ _ _); [|done].
  unfold paint. by rewrite length_imap.
Qed.

Lemma paint_paint c1 c2 px : paint c1 (paint c2 px) = paint c1 px.
Proof.
  unfold paint. apply list_eq. intros k.
  rewrite !list_lookup_imap. by destruct (px !! k).
Qed.

Lemma extents_overlay d marks a : extents (overlay d marks a) = extents a.
Proof.
  revert a. induction marks as [|m marks IH]; intros a; [done|].
  change (overlay d (m :: marks) a)
    with (overlay d marks (stamp m.1.1 m.1.2 d m.2 a)).
  by rewrite IH, extents_stamp.
Qed.

Lemma pixel_overlay d marks a x y :
  pixel (overlay d marks a) x y = stamped_pixel d marks x y <$> pixel a x y.
Proof.
  revert a. induction marks as [|m marks IH]; intros a.
  - simpl. by destruct (pixel a x y).
  - change (overlay d (m :: marks) a)
      with (overlay d marks (stamp m.1.1 m.1.2 d m.2 a)).
    rewrite IH, pixel_stamp. destruct (pixel a x y) as [px|]; simpl; [|done].
    f_equal. unfold stamped_pixel. rewrite filter_cons.
    replace (m.1.1, m.1.2) with m.1 by (by destruct m as [[??]?]).
    destruct (decide (covers d x y m.1 = true)) as [Hc|Hc].
    + rewrite Hc, last_cons.
      destruct (last _) as [m'|]; [apply paint_paint|done].
    + apply not_true_is_false in Hc. by rewrite Hc.
Qed.

(** ** The drawing loop *)

Lemma circle_run image center radius c w a :
  heap w !! image = Some a ->
  cv_rejects a center radius c = None ->
  circle image center radius (Some c) w =
    (Ok tt, set_heap (<[image := stamp center.1 center.2 radius c a]> (heap w)) w).
Proof. intros Ha Hok. unfold circle. by rewrite Ha, Hok. Qed.

Lemma circle_cases image center radius col w a :
  heap w !! image = Some a ->
  (exists e, circle image center radius col w = (Raise e, w)) \/
  (exists c, col = Some c /\
     circle image center radius col w =
       (Ok tt, set_heap (<[image := stamp center.1 center.2 radius c a]> (heap w)) w)).
Proof.
  intros Ha. unfold circle. destruct col as [c|]; [|left; by eexists].
  rewrite Ha. destruct (cv_rejects a center radius c); [left; by eexists|].
  right. by exists c.
Qed.

Lemma stampable_extents a1 a2 d p col :
  extents a2 = extents a1 -> stampable a1 d p col -> stampable a2 d p col.
Proof.
  intros Hext (ctr & Hc & Hacc). exists ctr. split; [done|].
  intros a' Ha'. apply Hacc. congruence.
Qed.

Lemma stampable_centers a d points cols :
  Forall2 (stampable a d) points cols ->
  Forall2 (fun p c => py_int p.1 = Ok c.1 /\ py_int p.2 = Ok c.2)
          points (centers points).
Proof.
  induction 1 as [|p col rest cols (ctr & Hp & _) _ IH]; [constructor|].
  change (centers (p :: rest))
    with (match center_of p with Some c => c :: centers rest | None => centers rest end).
  rewrite Hp. unfold center_of in Hp.
  destruct (py_int p.1) as [cx|] eqn:Hx; [|done].
  destruct (py_int p.2) as [cy|] eqn:Hy; [|done].
  injection Hp as <-. by constructor.
Qed.

Lemma length_centers a d points cols :
  Forall2 (stampable a d) points cols ->
  length (centers points) = length points.
Proof.
  intros Hpts. symmetry. eapply Forall2_length, stampable_centers, Hpts.
Qed.

Lemma draw_loop_cons image d color colors idx x y rest cc w :
  draw_loop image d color colors idx ((x, y) :: rest) cc w =
    match next_color color colors idx cc with
    | Raise e => (Raise e, w)
    | Ok cc' =>
        match py_int x with
        | Raise e => (Raise e, w)
        | Ok cx =>
            match py_int y with
            | Raise e => (Raise e, w)
            | Ok cy =>
                match circle image (cx, cy) d cc' w with
                | (Ok _, w1) => draw_loop image d color colors (idx + 1) rest cc' w1
                | (Raise e, w1) => (Raise e, w1)
                end
            end
        end
    end.
Proof.
  simpl. unfold next_color, bind, lift, ret.
  destruct color as [c|]; [|destruct (py_index colors idx)]; try reflexivity;
    destruct (py_int x); try reflexivity; destruct (py_int y); reflexivity.
Qed.

(** Whatever the loop does, and however it ends, it writes to the one
    array it was given, keeps its extents, and leaves every pixel that no
    marker covers as it was. *)
Lemma draw_loop_frame image d color colors points :
  forall idx cc w a r w',
    heap w !! image = Some a ->
    draw_loop image d color colors idx points cc w = (r, w') ->
    rng w' = rng w /\ canvas w' = canvas w /\
    (forall l, l <> image -> heap w' !! l = heap w !! l) /\
    exists a', heap w' !! image = Some a' /\ extents a' = extents a /\
      forall x y, marked d points x y = false -> pixel a' x y = pixel a x y.
Proof.
  induction points as [|[px py] rest IH]; intros idx cc w a r w' Ha Hrun.
  - simpl in Hrun. unfold ret in Hrun. injection Hrun as <- <-. eauto 10.
  - assert (Hstay : rng w = rng w /\ canvas w = canvas w /\
      (forall l, l <> image -> heap w !! l = heap w !! l) /\
      exists a', heap w !! image = Some a' /\ extents a' = extents a /\
        forall x y, marked d ((px, py) :: rest) x y = false ->
                    pixel a' x y = pixel a x y) by eauto 10.
    rewrite draw_loop_cons in Hrun.
    destruct (next_color color colors idx cc) as [cc'|e];
      [|by injection Hrun as <- <-].
    destruct (py_int px) as [cx|e] eqn:Hx; [|by injection Hrun as <- <-].
    destruct (py_int py) as [cy|e] eqn:Hy; [|by injection Hrun as <- <-].
    destruct (circle_cases image (cx, cy) d cc' w a Ha) as [[e He]|[c [-> Hc]]].
    + rewrite He in Hrun. by injection Hrun as <- <-.
    + rewrite Hc in Hrun. clear Hstay.
      eapply IH in Hrun; [|by apply lookup_insert_eq].
      destruct Hrun as (Hrng & Hcanvas & Hother & a' & Ha' & Hext & Hpix).
      split; [done|]. split; [done|]. split.
      * intros l Hl. rewrite Hother by done. simpl. by rewrite lookup_insert_ne.
      * exists a'. split; [done|]. split; [by rewrite Hext, extents_stamp|].
        intros x y Hm. simpl in Hm. unfold center_of in Hm at 1. simpl in Hm.
        rewrite Hx, Hy in Hm. apply orb_false_elim in Hm as [Hm1 Hm2].
        rewrite Hpix by done. rewrite pixel_stamp. simpl. rewrite Hm1.
        by destruct (pixel a x y).
Qed.

(** With every point stampable in the color at hand for it, the loop
    stamps the points in order and ends normally. *)
Lemma draw_loop_ok image d color colors points :
  forall idx cc cols w a,
    heap w !! image = Some a ->
    Forall2 (stampable a d) points cols ->
    match color with
    | Some c => cc = Some c /\ cols = replicate (length points) c
    | None => 0 <= idx /\
        forall k : nat, (k < length points)%nat ->
                        colors !! (Z.to_nat idx + k)%nat = cols !! k
    end ->
    draw_loop image d color colors idx points cc w =
      (Ok tt, set_heap (<[image := overlay d (zip (centers points) cols) a]> (heap w)) w).
Proof.
  induction points as [|[px py] rest IH];
    intros idx cc cols w a Ha Hpts Hcols.
  - simpl. unfold ret, set_heap. rewrite insert_id by done. by destruct w.
  - destruct cols as [|col cols]; [by apply Forall2_length in Hpts|].
    apply Forall2_cons in Hpts as [(ctr & Hc & Hacc) Hrest].
    destruct ctr as [cx cy].
    assert (Hxy : py_int px = Ok cx /\ py_int py = Ok cy).
    { unfold center_of in Hc. simpl in Hc.
      destruct (py_int px), (py_int py); naive_solver. }
    destruct Hxy as [Hx Hy].
    assert (Hnext : next_color color colors idx cc = Ok (Some col)).
    { unfold next_color. destruct color as [c|].
      - destruct Hcols as [-> Hrep]. simpl in Hrep. by injection Hrep as -> _.
      - destruct Hcols as [Hidx Hk]. specialize (Hk 0%nat ltac:(simpl; lia)).
        rewrite Nat.add_0_r in Hk. simpl in Hk. unfold py_index.
        destruct (Z.ltb_spec idx 0); [lia|].
        destruct (Z.ltb_spec idx 0); [lia|]. by rewrite Hk. }
    rewrite draw_loop_cons, Hnext, Hx, Hy.
    rewrite (circle_run image (cx, cy) d col w a Ha) by (by apply Hacc).
    rewrite (IH (idx + 1) (Some col) cols _ (stamp cx cy d col a)).
    + change (centers ((px, py) :: rest))
        with (match center_of (px, py) with
              | Some c => c :: centers rest
              | None => centers rest
              end).
      rewrite Hc. unfold set_heap. simpl. by rewrite insert_insert_eq.
    + simpl. apply lookup_insert_eq.
    + eapply Forall2_impl; [exact Hrest|]. intros p c'.
      apply stampable_extents. apply extents_stamp.
    + destruct color as [c|].
      * destruct Hcols as [_ Hrep]. simpl in Hrep. by injection Hrep as -> ->.
      * destruct Hcols as [Hidx Hk]. split; [lia|]. intros k Hlt.
        specialize (Hk (S k) ltac:(simpl; lia)). simpl in Hk. rewrite <- Hk.
        f_equal. lia.
Qed.

Lemma draw_loop_color_rebound image d colors idx points cc1 cc2 w :
  draw_loop image d None colors idx points cc1 w
    = draw_loop image d None colors idx points cc2 w.
Proof.
  destruct points as [|[x y] rest]; [done|]. by rewrite !draw_loop_cons.
Qed.

(** A stampable prefix of the points is stamped, and the loop goes on
    with the rest at the next index. *)
Lemma draw_loop_app image d color colors good rest :
  forall idx cc cols w a,
    heap w !! image = Some a ->
    Forall2 (stampable a d) good cols ->
    match color with
    | Some c => cc = Some c /\ cols = replicate (length good) c
    | None => 0 <= idx /\
        forall k : nat, (k < length good)%nat ->
                        colors !! (Z.to_nat idx + k)%nat = cols !! k
    end ->
    draw_loop image d color colors idx (good ++ rest) cc w =
      draw_loop image d color colors (idx + len good) rest
        (match color with Some _ => cc | None => None end)
        (set_heap (<[image := overlay d (zip (centers good) cols) a]> (heap w)) w).
Proof.
  induction good as [|[px py] good IH];
    intros idx cc cols w a Ha Hpts Hcols.
  - simpl. unfold len. simpl. rewrite Z.add_0_r.
    unfold set_heap. rewrite insert_id by done.
    replace (World (heap w) (rng w) (canvas w)) with w by (by destruct w).
    destruct color; [done|apply draw_loop_color_rebound].
  - destruct cols as [|col cols]; [by apply Forall2_length in Hpts|].
    apply Forall2_cons in Hpts as [(ctr & Hc & Hacc) Hrest].
    destruct ctr as [cx cy].
    assert (Hxy : py_int px = Ok cx /\ py_int py = Ok cy).
    { unfold center_of in Hc. simpl in Hc.
      destruct (py_int px), (py_int py); naive_solver. }
    destruct Hxy as [Hx Hy].
    assert (Hnext : next_color color colors idx cc = Ok (Some col)).
    { unfold next_color. destruct color as [c|].
      - destruct Hcols as [-> Hrep]. simpl in Hrep. by injection Hrep as -> _.
      - destruct Hcols as [Hidx Hk]. specialize (Hk 0%nat ltac:(simpl; lia)).
        rewrite Nat.add_0_r in Hk. simpl in Hk. unfold py_index.
        destruct (Z.ltb_spec idx 0); [lia|].
        destruct (Z.ltb_spec idx 0); [lia|]. by rewrite Hk. }
    change (((px, py) :: good) ++ rest) with ((px, py) :: (good ++ rest)).
    rewrite draw_loop_cons, Hnext, Hx, Hy.
    rewrite (circle_run image (cx, cy) d col w a Ha) by (by apply Hacc).
    rewrite (IH (idx + 1) (Some col) cols _ (stamp cx cy d col a)).
    + change (centers ((px, py) :: good))
        with (match center_of (px, py) with
              | Some c => c :: centers good
              | None => centers good
              end).
      rewrite Hc. unfold set_heap. simpl. rewrite insert_insert_eq.
      replace (idx + 1 + len good) with (idx + len ((px, py) :: good))
        by (unfold len; simpl length; lia).
      destruct color as [c|]; [|done].
      destruct Hcols as [-> Hrep]. simpl in Hrep. by injection Hrep as -> _.
    + simpl. apply lookup_insert_eq.
    + eapply Forall2_impl; [exact Hrest|]. intros p c'.
      apply stampable_extents. apply extents_stamp.
    + destruct color as [c|].
      * destruct Hcols as [_ Hrep]. simpl in Hrep. by injection Hrep as -> ->.
      * destruct Hcols as [Hidx Hk]. split; [lia|]. intros k Hlt.
        specialize (Hk (S k) ltac:(simpl; lia)). simpl in Hk. rewrite <- Hk.
        f_equal. lia.
Qed.

(** ** Calls to matplotlib *)

Lemma emits_nil w : emits [] w = w.
Proof. unfold emits. rewrite app_nil_r. by destruct w. Qed.

Lemma emits_emit e evs w : emits evs (emit e w) = emits (e :: evs) w.
Proof. unfold emits, emit. simpl. by rewrite <- app_assoc. Qed.

Lemma emits_app evs1 evs2 w : emits evs2 (emits evs1 w) = emits (evs1 ++ evs2) w.
Proof. unfold emits. simpl. by rewrite <- app_assoc. Qed.

Lemma plt_accepts_app evs1 evs2 :
  forall w, plt_accepts w (evs1 ++ evs2) <->
            plt_accepts w evs1 /\ plt_accepts (emits evs1 w) evs2.
Proof.
  induction evs1 as [|e evs1 IH]; intros w; simpl.
  - rewrite emits_nil. tauto.
  - rewrite IH, emits_emit. tauto.
Qed.

Lemma plot_all_ok evs :
  forall w, plt_accepts w evs -> plot_all evs w = (Ok tt, emits evs w).
Proof.
  induction evs as [|e evs IH]; intros w Hacc; simpl.
  - unfold ret. by rewrite emits_nil.
  - destruct Hacc as [He Hrest]. unfold bind, plot. rewrite He.
    by rewrite IH, emits_emit.
Qed.

(** However a row of calls ends, the calls made are a prefix of the row,
    the whole row when it ends normally; nothing but the canvas changes,
    and no [AssertionError] comes out. *)
Lemma plot_all_trace evs :
  forall w r w',
    plot_all evs w = (r, w') ->
    exists made,
      w' = emits made w /\ made `prefix_of` evs /\
      (r = Ok tt -> made = evs) /\ r <> Raise AssertionError.
Proof.
  induction evs as [|e evs IH]; intros w r w' Hrun; simpl in Hrun.
  - unfold ret in Hrun. injection Hrun as <- <-. exists [].
    by rewrite emits_nil.
  - unfold bind, plot in Hrun. destruct (plt_rejects w e) as [err|].
    + injection Hrun as <- <-. exists [e]. split; [done|].
      split; [by apply prefix_cons, prefix_nil|]. split; [done|].
      intros [= Herr]. by apply thrown_not_assertion in Herr.
    + apply IH in Hrun as (made & -> & Hpre & Hall & Hne).
      exists (e :: made). rewrite emits_emit. split; [done|].
      split; [by apply prefix_cons|]. split; [|done].
      intros Hr. by rewrite Hall.
Qed.

(** ** A run of [draw_points] *)

Lemma marks_of_colors color points start :
  marks_of color points start
    = zip (centers points) (colors_for color (length points) start).
Proof. by destruct color. Qed.

Lemma length_colors_for color n start : length (colors_for color n start) = n.
Proof. destruct color; [apply length_replicate|apply length_palette]. Qed.

(** With every point stampable, [draw_points] stamps them all on a fresh
    copy, and then returns the copy or shows it. *)
Lemma draw_points_run w I a points figsize d color inline cmap axis :
  heap w !! I = Some a ->
  palette_fits color (length points) ->
  Forall2 (stampable a d) points (colors_for color (length points) (rng w)) ->
  draw_points (Array I) points figsize d color inline cmap axis w =
    if inline
    then (plot_all (inline_events figsize cmap axis (fresh (dom (heap w)))) ;;;
          ret None) (stamped_world w a d color points)
    else (Ok (Some (fresh (dom (heap w)))), stamped_world w a d color points).
Proof.
  intros Ha Hfit Hpts. set (out := fresh (dom (heap w))).
  unfold draw_points. unfold bind at 1. unfold ret at 1.
  unfold bind at 1. unfold ndarray_copy. rewrite Ha. unfold alloc. fold out.
  unfold bind at 1.
  assert (Hloop : forall colors w1,
    heap w1 = <[out := a]> (heap w) ->
    match color with Some _ => True | None => colors = palette (length points) (rng w) end ->
    draw_loop out d color colors 0 points color w1 =
      (Ok tt, set_heap (<[out := overlay d (marks_of color points (rng w)) a]> (heap w)) w1)).
  { intros colors w1 Hw1 Hcolors.
    rewrite (draw_loop_ok out d color colors points 0 color
               (colors_for color (length points) (rng w)) w1 a).
    - by rewrite Hw1, insert_insert_eq, marks_of_colors.
    - rewrite Hw1. apply lookup_insert_eq.
    - done.
    - destruct color; [done|]. subst colors. split; [lia|]. intros k _.
      by rewrite Z2Nat.inj_0. }
  assert (Htail : forall w2,
    (if inline
     then plot (Figure figsize) ;;;
          (if negb axis then plot AxisOff else ret tt) ;;;
          plot (Imshow (Some out) cmap) ;;; plot Show ;;; ret None
     else ret (Some out)) w2
    = if inline
      then (plot_all (inline_events figsize cmap axis out) ;;; ret None) w2
      else (Ok (Some out), w2)).
  { intros w2. destruct inline; [|done].
    unfold inline_events. destruct axis; simpl; unfold bind, plot, ret;
      repeat (match goal with
              | |- context [plt_rejects ?w' ?e] => destruct (plt_rejects w' e)
              end; try reflexivity). }
  unfold stamped_world. fold out. destruct color as [c|].
  - unfold ret at 1. unfold bind at 1. rewrite Hloop by done. apply Htail.
  - unfold len. rewrite get_colors_run by (by apply Hfit).
    simpl rng. unfold bind at 1. rewrite Hloop by done. apply Htail.
Qed.

(** Whatever the points are, a call that returns the image writes to the
    fresh copy alone. *)
Lemma draw_points_frame w I a points figsize d color cmap axis r w' :
  heap w !! I = Some a ->
  draw_points (Array I) points figsize d color false cmap axis w = (r, w') ->
  (forall l, l <> fresh (dom (heap w)) -> heap w' !! l = heap w !! l) /\
  canvas w' = canvas w /\
  (forall v, r = Ok v -> v = Some (fresh (dom (heap w)))) /\
  exists a', heap w' !! fresh (dom (heap w)) = Some a' /\ extents a' = extents a /\
    forall x y, marked d points x y = false -> pixel a' x y = pixel a x y.
Proof.
  intros Ha. set (out := fresh (dom (heap w))).
  unfold draw_points. unfold bind at 1. unfold ret at 1.
  unfold bind at 1. unfold ndarray_copy. rewrite Ha. unfold alloc. fold out.
  unfold bind at 1.
  set (w1 := set_heap (<[out := a]> (heap w)) w).
  assert (Hw1 : heap w1 !! out = Some a) by apply lookup_insert_eq.
  assert (Hgo : forall colors w2, heap w2 = heap w1 -> canvas w2 = canvas w ->
    (bind (draw_loop out d color colors 0 points color) (fun _ => ret (Some out))) w2
      = (r, w') ->
    (forall l, l <> out -> heap w' !! l = heap w !! l) /\
    canvas w' = canvas w /\
    (forall v, r = Ok v -> v = Some out) /\
    exists a', heap w' !! out = Some a' /\ extents a' = extents a /\
      forall x y, marked d points x y = false -> pixel a' x y = pixel a x y).
  { intros colors w2 Hh Hc. unfold bind.
    destruct (draw_loop out d color colors 0 points color w2) as [r0 w3] eqn:Hloop.
    apply (draw_loop_frame out d color colors points 0 color w2 a) in Hloop;
      [|by rewrite Hh].
    destruct Hloop as (_ & Hcanvas & Hother & a' & Ha' & Hext & Hpix).
    intros Hr. assert (w' = w3) as -> by (destruct r0; by injection Hr).
    split.
    { intros l Hl. rewrite Hother, Hh by done. simpl. by rewrite lookup_insert_ne. }
    split; [congruence|]. split; [|by exists a'].
    intros v ->. destruct r0; [|done]. unfold ret in Hr. by injection Hr as <-. }
  destruct color as [c|].
  - unfold ret at 1. apply (Hgo [] w1); done.
  - destruct (get_colors (len points) w1) as [[colors|e] w2] eqn:Hcolors;
      apply get_colors_frame in Hcolors as (Hh & Hc & Hraise).
    + by apply Hgo.
    + intros [= <- <-]. destruct (Hraise e eq_refl) as [-> _].
      split; [intros l Hl; simpl; by rewrite lookup_insert_ne|].
      split; [done|]. split; [done|]. by exists a.
Qed.

(** ** Truncation *)

Lemma truncation_integer z : truncation (inject_Z z) z.
Proof.
  unfold truncation, Qle, Qlt. simpl. lia.
Qed.

Lemma py_int_truncation x n :
  py_int x = Ok n -> exists v, num_value x = Some v /\ truncation v n.
Proof.
  destruct x as [z|[s|s| |s m e]]; simpl; intros H; try discriminate.
  - injection H as <-. eauto using truncation_integer.
  - injection H as <-. eauto using truncation_integer.
  - injection H as <-. eexists. split; [done|].
    unfold float_value. destruct e as [|k|k].
    + rewrite Z.shiftl_0_r, Z.mul_1_r. destruct s; apply truncation_integer.
    + rewrite Z.shiftl_mul_pow2 by lia.
      replace (if s then - (Z.pos m * 2 ^ Z.pos k) else Z.pos m * 2 ^ Z.pos k)
        with ((if s then Z.neg m else Z.pos m) * 2 ^ Z.pos k) by (destruct s; lia).
      apply truncation_integer.
    + change (Z.shiftl (Z.pos m) (Z.neg k)) with (Z.shiftr (Z.pos m) (Z.pos k)).
      rewrite Z.shiftr_div_pow2 by lia.
      assert (HD : Z.pos (2 ^ k) = 2 ^ Z.pos k) by apply Pos2Z.inj_pow.
      assert (Hpos : 0 < 2 ^ Z.pos k) by (apply Z.pow_pos_nonneg; lia).
      pose proof (Z.div_mod (Z.pos m) (2 ^ Z.pos k) ltac:(lia)) as Hdm.
      pose proof (Z.mod_pos_bound (Z.pos m) (2 ^ Z.pos k) Hpos) as Hmod.
      unfold truncation, Qle, Qlt. destruct s; simpl; rewrite HD; nia.
Qed.

(** ** Input normalization *)

Lemma resolves_weaken h0 h0' h h' image result :
  h0' ⊆ h0 -> h ⊆ h' ->
  resolves h0 h image result -> resolves h0' h' image result.
Proof.
  intros H0 H. unfold resolves. destruct image as [s|l]; [|done].
  destruct (files s) as [a|]; [|done].
  intros (l & -> & Hnew & Hl). exists l. split; [done|]. split.
  - destruct (h0' !! l) as [b|] eqn:Hb; [|done].
    by rewrite (lookup_weaken _ _ _ _ Hb H0) in Hnew.
  - by eapply lookup_weaken.
Qed.

Lemma decoded_refs_new args :
  forall imgs h0 h l,
    Forall2 (resolves h0 h) args imgs ->
    l ∈ decoded_refs args imgs -> h0 !! l = None.
Proof.
  induction args as [|image rest IH]; intros imgs h0 h l Hall Hin.
  - by apply elem_of_nil in Hin.
  - destruct imgs as [|img imgs];
      [destruct image; by apply elem_of_nil in Hin|].
    apply Forall2_cons in Hall as [Hfirst Hrest].
    destruct image as [s|l0]; simpl in Hin.
    + destruct img as [l1|]; [|by eapply IH].
      apply elem_of_cons in Hin as [->|Hin]; [|by eapply IH].
      unfold resolves in Hfirst. destruct (files s); [|done].
      destruct Hfirst as (l' & Heq & Hnew & _). by injection Heq as ->.
    + by eapply IH.
Qed.

Lemma read_images_full args :
  forall w, exists imgs h,
    _read_image_if_need args w = (Ok imgs, set_heap h w) /\
    heap w ⊆ h /\
    Forall2 (resolves (heap w) h) args imgs /\
    NoDup (decoded_refs args imgs).
Proof.
  induction args as [|image rest IH]; intros w.
  - exists [], (heap w). simpl. unfold ret, set_heap.
    split; [by destruct w|]. split; [done|]. split; constructor.
  - simpl. unfold bind at 1.
    assert (Hfirst : exists o h1,
      match image with Path s => imread s | Array l => ret (Some l) end w
        = (Ok o, set_heap h1 w) /\
      heap w ⊆ h1 /\ resolves (heap w) h1 image o /\
      (forall l, o = Some l -> match image with Path _ => True | _ => False end ->
                 is_Some (h1 !! l))).
    { destruct image as [s|l].
      - unfold imread, resolves. destruct (files s) as [a|].
        + pose proof (is_fresh (dom (heap w))) as Hfresh.
          apply not_elem_of_dom in Hfresh.
          exists (Some (fresh (dom (heap w)))), (<[fresh (dom (heap w)) := a]> (heap w)).
          split; [done|]. split; [by apply insert_subseteq|]. split.
          * eexists. split; [done|]. split; [done|]. apply lookup_insert_eq.
          * intros l [= <-] _. rewrite lookup_insert_eq. by eexists.
        + exists None, (heap w). unfold ret, set_heap.
          split; [by destruct w|]. done.
      - exists (Some l), (heap w). unfold ret, set_heap, resolves.
        split; [by destruct w|]. done. }
    destruct Hfirst as (o & h1 & -> & Hsub1 & Hres1 & Hlive).
    destruct (IH (set_heap h1 w)) as (imgs & h2 & Hrest & Hsub2 & Hall & Hnodup).
    simpl in Hsub2, Hall.
    unfold bind. rewrite Hrest. exists (o :: imgs), h2. unfold ret.
    split; [done|]. split; [by etrans|]. split.
    + constructor; [by apply (resolves_weaken (heap w) (heap w) h1 h2)|].
      eapply Forall2_impl; [exact Hall|]. intros image' img'.
      by apply (resolves_weaken h1 (heap w) h2 h2).
    + destruct image as [s|l]; simpl; [|done].
      destruct o as [l1|]; [|done]. constructor; [|done].
      intros Hin. apply (decoded_refs_new _ _ _ _ _ Hall) in Hin.
      destruct (Hlive l1 eq_refl I) as [b Hb]. congruence.
Qed.

(** ** A run of the grid display *)

Lemma titles_of_grid_events n_rows n_columns cmap axis layout_pad images :
  forall i ts,
    titles_of (grid_events n_rows n_columns cmap axis layout_pad i ts images)
      = take (length images) ts.
Proof.
  induction images as [|image rest IH]; intros i ts.
  - by destruct ts.
  - destruct ts as [|t ts]; [done|]. simpl.
    unfold titles_of in *. destruct axis; simpl; by rewrite IH.
Qed.

Lemma subplots_of_grid_events n_rows n_columns cmap axis layout_pad images :
  forall i ts,
    subplots_of (grid_events n_rows n_columns cmap axis layout_pad i ts images)
      = (fun k : nat => i + Z.of_nat k) <$> seq 0 (length ts `min` length images).
Proof.
  induction images as [|image rest IH]; intros i ts.
  - destruct ts; simpl; by rewrite ?Nat.min_0_r.
  - destruct ts as [|t ts]; [done|]. simpl length. simpl Nat.min.
    simpl seq. rewrite fmap_cons, <- fmap_S_seq, <- list_fmap_compose.
    rewrite Z.add_0_r.
    assert (Hrest : subplots_of
              (grid_events n_rows n_columns cmap axis layout_pad (i + 1) ts rest)
            = ((fun k : nat => i + Z.of_nat k) ∘ S) <$> seq 0 (length ts `min` length rest)).
    { rewrite IH. apply list_fmap_ext. intros _ k _. simpl. lia. }
    rewrite <- Hrest. unfold subplots_of. by destruct axis.
Qed.

Lemma imshows_of_grid_events n_rows n_columns cmap axis layout_pad images :
  forall i ts,
    imshows_of (grid_events n_rows n_columns cmap axis layout_pad i ts images)
      = take (length ts) images.
Proof.
  induction images as [|image rest IH]; intros i ts.
  - destruct ts; simpl; by rewrite ?take_nil.
  - destruct ts as [|t ts]; [done|]. simpl.
    unfold imshows_of in *. destruct axis; simpl; by rewrite IH.
Qed.

Lemma grid_events_cons n_rows n_columns cmap axis layout_pad i t ts image rest :
  grid_events n_rows n_columns cmap axis layout_pad i (t :: ts) (image :: rest)
    = slot_events n_rows n_columns cmap axis layout_pad i t image
        ++ grid_events n_rows n_columns cmap axis layout_pad (i + 1) ts rest.
Proof. reflexivity. Qed.

Lemma prefix_omap {A B} (f : A -> option B) (l1 l2 : list A) :
  l1 `prefix_of` l2 -> omap f l1 `prefix_of` omap f l2.
Proof. intros [k ->]. rewrite omap_app. by eexists. Qed.

(** One pass through the loop body: the slot is selected, then the title
    is looked up, then the slot is rendered. *)
Lemma subplot_loop_cons n_rows n_columns titles cmap axis layout_pad i image rest w :
  subplot_loop n_rows n_columns titles cmap axis layout_pad i (image :: rest) w =
    match py_index titles (i - 1) with
    | Ok t =>
        (plot_all (slot_events n_rows n_columns cmap axis layout_pad i t image) ;;;
         subplot_loop n_rows n_columns titles cmap axis layout_pad (i + 1) rest) w
    | Raise e => (plot (Subplot n_rows n_columns i) ;;; raise e) w
    end.
Proof.
  simpl subplot_loop. unfold slot_events.
  destruct (py_index titles (i - 1)) as [t|e]; destruct axis; simpl;
    unfold bind, plot, lift, ret, raise;
    repeat (match goal with
            | |- context [plt_rejects ?w' ?e'] => destruct (plt_rejects w' e')
            end; try reflexivity).
Qed.

Lemma titles_index (before ts : list (option string)) i :
  i = len before + 1 ->
  py_index (before ++ ts) (i - 1) =
    match ts with t :: _ => Ok t | [] => Raise IndexError end.
Proof.
  intros Hi. unfold py_index, len in *.
  destruct (Z.ltb_spec (i - 1) 0); [lia|].
  destruct (Z.ltb_spec (i - 1) 0); [lia|].
  replace (Z.to_nat (i - 1)) with (length before + 0)%nat by lia.
  rewrite lookup_app_r, Nat.add_0_r, Nat.sub_diag by lia.
  by destruct ts.
Qed.

(** The loop when matplotlib accepts its calls: all slots are rendered
    when the titles suffice, and else the title lookup of the first slot
    without a title raises. *)
Lemma subplot_loop_ok n_rows n_columns cmap axis layout_pad images :
  forall before ts i w,
    i = len before + 1 ->
    plt_accepts w
      (grid_events n_rows n_columns cmap axis layout_pad i ts images
         ++ if (length images <=? length ts)%nat then []
            else [Subplot n_rows n_columns (i + len ts)]) ->
    subplot_loop n_rows n_columns (before ++ ts) cmap axis layout_pad i images w =
      if (length images <=? length ts)%nat
      then (Ok tt, emits (grid_events n_rows n_columns cmap axis layout_pad i ts images) w)
      else (Raise IndexError,
            emits (grid_events n_rows n_columns cmap axis layout_pad i ts images
                     ++ [Subplot n_rows n_columns (i + len ts)]) w).
Proof.
  induction images as [|image rest IH]; intros before ts i w Hi Hacc.
  - simpl. destruct ts; simpl; unfold ret; by rewrite emits_nil.
  - rewrite subplot_loop_cons, (titles_index before ts i Hi).
    destruct ts as [|t ts].
    + simpl in Hacc. destruct Hacc as [Hsub _].
      change (len (@nil (option string))) with 0 in *.
      rewrite Z.add_0_r in *.
      unfold bind, plot, raise. by rewrite Hsub.
    + rewrite grid_events_cons, <- app_assoc in Hacc.
      apply plt_accepts_app in Hacc as [Hslot Hrest].
      unfold bind. rewrite (plot_all_ok _ _ Hslot).
      replace (before ++ t :: ts) with ((before ++ [t]) ++ ts)
        by (by rewrite <- app_assoc).
      assert (Hi' : i + 1 = len (before ++ [t]) + 1).
      { unfold len in *. rewrite length_app. simpl. lia. }
      assert (Hend : i + 1 + len ts = i + len (t :: ts)).
      { unfold len. simpl length. lia. }
      simpl length in *. simpl Nat.leb in *. rewrite <- Hend in Hrest.
      rewrite (IH _ ts (i + 1) _ Hi' Hrest). rewrite Hend.
      rewrite grid_events_cons.
      destruct (length rest <=? length ts)%nat;
        by rewrite emits_app, <- ?app_assoc.
Qed.

(** The loop however it ends: the calls made are a prefix of the calls of
    the slots (and of the selection of the first slot without a title),
    nothing but the canvas changes, and no [AssertionError] comes out. *)
Lemma subplot_loop_trace n_rows n_columns cmap axis layout_pad images :
  forall before ts i w r w',
    i = len before + 1 ->
    subplot_loop n_rows n_columns (before ++ ts) cmap axis layout_pad i images w
      = (r, w') ->
    exists made,
      w' = emits made w /\
      made `prefix_of`
        (grid_events n_rows n_columns cmap axis layout_pad i ts images
           ++ [Subplot n_rows n_columns (i + len ts)]) /\
      (r = Ok tt ->
         made = grid_events n_rows n_columns cmap axis layout_pad i ts images) /\
      r <> Raise AssertionError.
Proof.
  induction images as [|image rest IH]; intros before ts i w r w' Hi Hrun.
  - simpl in Hrun. unfold ret in Hrun. injection Hrun as <- <-.
    exists []. rewrite emits_nil. split; [done|].
    split; [apply prefix_nil|]. split; [by destruct ts|done].
  - rewrite subplot_loop_cons, (titles_index before ts i Hi) in Hrun.
    destruct ts as [|t ts].
    + exists [Subplot n_rows n_columns i].
      unfold bind, plot, raise in Hrun.
      replace (i + len []) with i by (unfold len; simpl; lia). simpl.
      destruct (plt_rejects w (Subplot n_rows n_columns i)) as [err|];
        injection Hrun as <- <-; (split; [done|]); (split; [done|]);
        (split; [done|]); [|done].
      intros [= Herr]. by apply thrown_not_assertion in Herr.
    + unfold bind in Hrun.
      destruct (plot_all (slot_events n_rows n_columns cmap axis layout_pad i t image) w)
        as [r1 w1] eqn:Hslot.
      apply plot_all_trace in Hslot as (made1 & -> & Hpre1 & Hall1 & Hne1).
      rewrite grid_events_cons, <- app_assoc.
      destruct r1 as [[]|e].
      * rewrite (Hall1 eq_refl) in *.
        replace (before ++ t :: ts) with ((before ++ [t]) ++ ts) in Hrun
          by (by rewrite <- app_assoc).
        assert (Hi' : i + 1 = len (before ++ [t]) + 1).
        { unfold len in *. rewrite length_app. simpl. lia. }
        apply (IH _ ts (i + 1) _ _ _ Hi') in Hrun as (made & -> & Hpre & Hall & Hne).
        replace (i + 1 + len ts) with (i + len (t :: ts)) in Hpre
          by (unfold len; simpl length; lia).
        eexists. rewrite emits_app. split; [done|].
        split; [by apply prefix_app|]. split; [|done].
        intros Hr. by rewrite (Hall Hr).
      * injection Hrun as <- <-. exists made1. split; [done|].
        split; [by apply prefix_app_r|]. done.
Qed.

(** The grid display when the capacity check passes and matplotlib
    accepts its calls. *)
Lemma subplot_images_ok images n_rows n_columns figsize titles cmap axis
    layout_pad w imgs w1 :
  len images <= n_rows * n_columns ->
  plt_rejects w (Figure figsize) = None ->
  _read_image_if_need images (emit (Figure figsize) w) = (Ok imgs, w1) ->
  plt_accepts w1
    (grid_events n_rows n_columns cmap axis layout_pad 1
       (slot_titles titles (length images)) imgs
     ++ if (length imgs <=? length (slot_titles titles (length images)))%nat
        then [Show]
        else [Subplot n_rows n_columns
                (1 + len (slot_titles titles (length images)))]) ->
  subplot_images images n_rows n_columns figsize titles cmap axis layout_pad w =
    if (length imgs <=? length (slot_titles titles (length images)))%nat
    then (Ok tt,
          emits (grid_events n_rows n_columns cmap axis layout_pad 1
                   (slot_titles titles (length images)) imgs ++ [Show]) w1)
    else (Raise IndexError,
          emits (grid_events n_rows n_columns cmap axis layout_pad 1
                   (slot_titles titles (length images)) imgs
                   ++ [Subplot n_rows n_columns
                         (1 + len (slot_titles titles (length images)))]) w1).
Proof.
  intros Hcap Hfig Hread Hacc. unfold subplot_images.
  apply Z.leb_le in Hcap. rewrite Hcap. simpl py_assert.
  unfold bind at 1. unfold ret at 1. unfold bind at 1. unfold plot at 1.
  rewrite Hfig. unfold bind at 1. rewrite Hread. unfold bind at 1.
  fold (slot_titles titles (length images)).
  set (ts := slot_titles titles (length images)) in *.
  destruct (length imgs <=? length ts)%nat eqn:Hlen.
  - apply plt_accepts_app in Hacc as [Hgrid Hshow].
    rewrite (subplot_loop_ok _ _ _ _ _ imgs [] ts 1 _ eq_refl)
      by (rewrite Hlen; by rewrite app_nil_r).
    rewrite Hlen. destruct Hshow as [Hshow _].
    unfold plot. rewrite Hshow. unfold emits, emit. simpl.
    by rewrite <- app_assoc.
  - rewrite (subplot_loop_ok _ _ _ _ _ imgs [] ts 1 _ eq_refl)
      by (by rewrite Hlen).
    by rewrite Hlen.
Qed.

(** The grid display however it ends, once the capacity check has
    passed: the figure is opened first, every title set after it is one
    of the slot titles in their order, arrays only come into being, and
    no [AssertionError] comes out. *)
Lemma subplot_images_trace images n_rows n_columns figsize titles cmap axis
    layout_pad w r w' :
  len images <= n_rows * n_columns ->
  subplot_images images n_rows n_columns figsize titles cmap axis layout_pad w
    = (r, w') ->
  heap w ⊆ heap w' /\ rng w' = rng w /\ r <> Raise AssertionError /\
  exists made,
    canvas w' = canvas w ++ Figure figsize :: made /\
    titles_of made `prefix_of` slot_titles titles (length images).
Proof.
  intros Hcap. unfold subplot_images.
  apply Z.leb_le in Hcap. rewrite Hcap. simpl py_assert.
  unfold bind at 1. unfold ret at 1. unfold bind at 1. unfold plot at 1.
  fold (slot_titles titles (length images)).
  set (ts := slot_titles titles (length images)).
  destruct (plt_rejects w (Figure figsize)) as [err|].
  { intros [= <- <-]. split; [done|]. split; [done|].
    split; [intros [= Herr]; by apply thrown_not_assertion in Herr|].
    exists []. split; [done|]. apply prefix_nil. }
  destruct (read_images_full images (emit (Figure figsize) w))
    as (imgs & h & Hread & Hsub & _ & _).
  unfold bind at 1. rewrite Hread. unfold bind at 1.
  destruct (subplot_loop n_rows n_columns ts cmap axis layout_pad 1 imgs
              (set_heap h (emit (Figure figsize) w))) as [r1 w1] eqn:Hloop.
  apply (subplot_loop_trace _ _ _ _ _ imgs [] ts 1 _ _ _ eq_refl) in Hloop
    as (made & -> & Hpre & Hall & Hne).
  assert (Htitles : titles_of made `prefix_of` ts).
  { apply (prefix_omap (fun e => match e with Title t => Some t | _ => None end))
      in Hpre.
    fold (titles_of made) in Hpre. etrans; [exact Hpre|].
    change (omap _ ?l) with (titles_of l). unfold titles_of. rewrite omap_app.
    fold (titles_of (grid_events n_rows n_columns cmap axis layout_pad 1 ts imgs)).
    rewrite titles_of_grid_events. simpl. rewrite app_nil_r. apply prefix_take. }
  destruct r1 as [[]|e].
  - unfold plot. intros Hrun.
    assert (w' = emit Show (emits made (set_heap h (emit (Figure figsize) w)))
            /\ r <> Raise AssertionError) as [-> Hr].
    { destruct (plt_rejects _ Show) as [err|]; injection Hrun as <- <-;
        (split; [done|]); [|done].
      intros [= Herr]. by apply thrown_not_assertion in Herr. }
    split; [done|]. split; [done|]. split; [done|].
    exists (made ++ [Show]). split.
    + simpl. by rewrite <- !app_assoc.
    + unfold titles_of. rewrite omap_app. simpl. rewrite app_nil_r. exact Htitles.
  - intros [= <- <-]. split; [done|]. split; [done|]. split; [done|].
    exists made. split; [|done]. simpl. by rewrite <- !app_assoc.
Qed.

(** ** Marks and pixels *)

Lemma stamped_pixel_one_color d c marks x y px :
  Forall (fun m : (Z * Z) * rgb => m.2 = c) marks ->
  stamped_pixel d marks x y px =
    if existsb (fun m => covers d x y m.1) marks then paint c px else px.
Proof.
  intros Hall. unfold stamped_pixel.
  destruct (last _) as [m|] eqn:Hlast.
  - apply last_Some_elem_of, list_elem_of_filter in Hlast as [Hc Hin].
    rewrite (proj1 (Forall_forall _ _) Hall m Hin).
    replace (existsb _ marks) with true; [done|]. symmetry.
    apply existsb_exists. exists m. by rewrite <- list_elem_of_In.
  - apply last_None in Hlast.
    destruct (existsb _ marks) eqn:Hex; [|done].
    apply existsb_exists in Hex as (m & Hin & Hc). exfalso.
    apply list_elem_of_In in Hin.
    by eapply (filter_nil_not_elem_of _ _ m Hlast).
Qed.

Lemma marked_zip d points x y :
  forall cols : list rgb,
    (length points <= length cols)%nat ->
    existsb (fun m => covers d x y m.1) (zip (centers points) cols)
      = marked d points x y.
Proof.
  induction points as [|p rest IH]; intros cols Hlen; [done|].
  change (marked d (p :: rest) x y)
    with (match center_of p with Some c => covers d x y c | None => false end
          || marked d rest x y).
  change (centers (p :: rest))
    with (match center_of p with Some c => c :: centers rest | None => centers rest end).
  simpl in Hlen. destruct (center_of p) as [c|].
  - destruct cols as [|col cols]; simpl in *; [lia|].
    rewrite IH by lia. done.
  - simpl. apply IH. lia.
Qed.

Lemma py_int_raises x e :
  py_int x = Raise e -> e = ValueError \/ e = OverflowError.
Proof.
  destruct x as [z|[s|s| |s m e']]; simpl; intros [= <-]; auto.
Qed.

Lemma stamped_pixel_last d before m after x y px :
  covers d x y m.1 = true ->
  Forall (fun m' : (Z * Z) * rgb => covers d x y m'.1 = false) after ->
  stamped_pixel d (before ++ m :: after) x y px = paint m.2 px.
Proof.
  intros Hm Hafter. unfold stamped_pixel.
  rewrite filter_app, filter_cons_True by done.
  replace (filter _ after) with (@nil ((Z * Z) * rgb)).
  - by rewrite last_snoc.
  - symmetry. induction Hafter as [|m' after Hm' _ IH]; [done|].
    rewrite filter_cons_False; [done|]. by rewrite Hm'.
Qed.

(** * Properties of the palette *)

(** C2: for every [n] with [0 <= n <= 12], [get_colors n] returns exactly
    the first [n] entries of the fixed palette, in the palette's order.
    The generator is not touched (the world comes back as it was), and
    the result is the same under every tape of raw draws. *)
Theorem get_colors_fixed_prefix (n : Z) (w : world) :
  0 <= n <= 12 ->
  get_colors n w = (Ok (take (Z.to_nat n) COLORS), w).
Proof.
  intros Hn. rewrite <- (Z2Nat.id n) at 1 by lia.
  rewrite get_colors_run by lia. unfold palette.
  replace (Z.to_nat n - 12)%nat with 0%nat by lia.
  simpl drawn_rows. rewrite app_nil_r, Nat.add_0_r.
  unfold set_rng. by destruct w.
Qed.

(** Beyond the fixed palette, when numpy makes the rows: [n] colors in
    all, the twelve fixed ones first, then [n - 12] drawn ones, every
    channel a draw of its own out of [randint(0, 255)], hence at most
    254. *)
Lemma get_colors_random_tail (n : Z) (w : world) :
  12 < n ->
  (Z.to_nat n - 12 <= Pos.to_nat np_capacity)%nat ->
  exists extra,
    get_colors n w =
      (Ok (COLORS ++ extra), set_rng (rng w + 3 * (Z.to_nat n - 12)) w) /\
    extra = drawn_rows 0 255 (rng w) (Z.to_nat n - 12) /\
    len (COLORS ++ extra) = n /\
    Forall (fun c : rgb => 0 <= c.1.1 <= 254 /\ 0 <= c.1.2 <= 254 /\ 0 <= c.2 <= 254)
           extra.
Proof.
  intros Hn Hfit. exists (drawn_rows 0 255 (rng w) (Z.to_nat n - 12)).
  split; [|split; [done|split]].
  - rewrite <- (Z2Nat.id n) at 1 by lia. rewrite get_colors_run by done.
    unfold palette. by rewrite (take_ge COLORS) by (simpl; lia).
  - unfold len. rewrite length_app, length_drawn_rows.
    change (length COLORS) with 12%nat. lia.
  - eapply Forall_impl; [apply (drawn_rows_range 0 255); lia|].
    simpl. intros c. lia.
Qed.

(** C3, on the code: [get_colors 13] returns the twelve fixed colors and
    one drawn color, and whatever the generator draws, no channel of that
    color is 255: [randint(0, 255)] draws from 0..254. *)
Theorem get_colors_13_excludes_255 (w : world) :
  exists c0 c1 c2,
    get_colors 13 w = (Ok (COLORS ++ [(c0, c1, c2)]), set_rng (rng w + 3) w) /\
    0 <= c0 <= 254 /\ 0 <= c1 <= 254 /\ 0 <= c2 <= 254.
Proof.
  pose proof (Pos2Nat.is_pos np_capacity) as Hcap.
  destruct (get_colors_random_tail 13 w ltac:(lia) ltac:(simpl; lia))
    as (extra & Hrun & -> & _ & Hall).
  change (Z.to_nat 13 - 12)%nat with 1%nat in *. simpl drawn_rows in *.
  apply Forall_cons in Hall as [Hc _]. simpl in Hc.
  do 3 eexists. split; [exact Hrun|]. exact Hc.
Qed.

(** * Properties of the grid display *)

(** C7: with more images than [n_rows * n_columns] slots, the call raises
    [AssertionError] and the world is as before: no figure was opened, no
    path decoded, nothing rendered.  With at most that many images the
    check passes: the figure is opened and the call does not end in an
    [AssertionError]. *)
Theorem subplot_images_capacity_check images n_rows n_columns figsize titles
    cmap axis layout_pad w :
  (len images > n_rows * n_columns ->
     subplot_images images n_rows n_columns figsize titles cmap axis layout_pad w
       = (Raise AssertionError, w)) /\
  (len images <= n_rows * n_columns ->
     exists r w' evs,
       subplot_images images n_rows n_columns figsize titles cmap axis layout_pad w
         = (r, w') /\
       r <> Raise AssertionError /\
       canvas w' = canvas w ++ Figure figsize :: evs).
Proof.
  split; intros Hcap.
  - unfold subplot_images.
    destruct (Z.leb_spec (len images) (n_rows * n_columns)); [lia|].
    reflexivity.
  - destruct (subplot_images images n_rows n_columns figsize titles cmap axis
                layout_pad w) as [r w'] eqn:Hrun.
    destruct (subplot_images_trace _ _ _ _ _ _ _ _ _ _ _ Hcap Hrun)
      as (_ & _ & Hne & made & Hcanvas & _).
    by exists r, w', made.
Qed.

Lemma read_images_length images w imgs w1 :
  _read_image_if_need images w = (Ok imgs, w1) -> length imgs = length images.
Proof.
  intros Hread.
  destruct (read_images_full images w) as (imgs' & h & Hread' & _ & Hall & _).
  rewrite Hread in Hread'. injection Hread' as -> _.
  symmetry. by eapply Forall2_length.
Qed.

(** C8: given one title string, or no title, the grid display sets that
    very value as the title of every slot.  However the call ends, every
    title it has set is that value.  When matplotlib accepts the calls,
    the call ends normally, the canvas receives the slots of all the
    images, each rendered with the title, and the titles set are the
    value repeated [len(images)] times. *)
Theorem subplot_images_broadcasts_title images n_rows n_columns figsize
    (t : option string) cmap axis layout_pad w :
  len images <= n_rows * n_columns ->
  (forall r w',
     subplot_images images n_rows n_columns figsize (single_title t) cmap axis
       layout_pad w = (r, w') ->
     exists made,
       canvas w' = canvas w ++ Figure figsize :: made /\
       titles_of made `prefix_of` replicate (length images) t) /\
  (forall imgs w1,
     plt_rejects w (Figure figsize) = None ->
     _read_image_if_need images (emit (Figure figsize) w) = (Ok imgs, w1) ->
     plt_accepts w1
       (grid_events n_rows n_columns cmap axis layout_pad 1
          (replicate (length images) t) imgs ++ [Show]) ->
     length imgs = length images /\
     subplot_images images n_rows n_columns figsize (single_title t) cmap axis
       layout_pad w
       = (Ok tt,
          emits (grid_events n_rows n_columns cmap axis layout_pad 1
                   (replicate (length images) t) imgs ++ [Show]) w1) /\
     titles_of (grid_events n_rows n_columns cmap axis layout_pad 1
                  (replicate (length images) t) imgs)
       = replicate (length images) t).
Proof.
  intros Hcap.
  assert (Hts : slot_titles (single_title t) (length images)
                = replicate (length images) t) by (by destruct t).
  split.
  - intros r w' Hrun.
    destruct (subplot_images_trace _ _ _ _ _ _ _ _ _ _ _ Hcap Hrun)
      as (_ & _ & _ & made & Hcanvas & Htitles).
    exists made. by rewrite <- Hts.
  - intros imgs w1 Hfig Hread Hacc.
    pose proof (read_images_length _ _ _ _ Hread) as Hlen.
    split; [done|].
    pose proof (subplot_images_ok images n_rows n_columns figsize (single_title t)
                  cmap axis layout_pad w imgs w1 Hcap Hfig Hread) as Hrun.
    rewrite Hts, Hlen, length_replicate, Nat.leb_refl in Hrun.
    split; [by apply Hrun|].
    rewrite titles_of_grid_events, Hlen, take_replicate. f_equal. lia.
Qed.

(** C9: given a list of titles shorter than the list of images, the grid
    display checks nothing beforehand: when matplotlib accepts the calls
    up to there, it opens the figure, renders one slot per title of the
    list, selects the next slot, and there raises [IndexError] on
    indexing the titles, at the first image index past the end of the
    list. *)
Theorem subplot_images_short_titles images n_rows n_columns figsize
    (l : list (option string)) cmap axis layout_pad w imgs w1 :
  len images <= n_rows * n_columns ->
  (length l < length images)%nat ->
  plt_rejects w (Figure figsize) = None ->
  _read_image_if_need images (emit (Figure figsize) w) = (Ok imgs, w1) ->
  plt_accepts w1
    (grid_events n_rows n_columns cmap axis layout_pad 1 l imgs
       ++ [Subplot n_rows n_columns (len l + 1)]) ->
  length imgs = length images /\
  subplot_images images n_rows n_columns figsize (TitlesList l) cmap axis
    layout_pad w
    = (Raise IndexError,
       emits (grid_events n_rows n_columns cmap axis layout_pad 1 l imgs
                ++ [Subplot n_rows n_columns (len l + 1)]) w1) /\
  titles_of (grid_events n_rows n_columns cmap axis layout_pad 1 l imgs) = l /\
  py_index l (len l) = Raise IndexError.
Proof.
  intros Hcap Hshort Hfig Hread Hacc.
  pose proof (read_images_length _ _ _ _ Hread) as Hlen.
  split; [done|].
  pose proof (subplot_images_ok images n_rows n_columns figsize (TitlesList l)
                cmap axis layout_pad w imgs w1 Hcap Hfig Hread) as Hrun.
  simpl slot_titles in Hrun. rewrite Hlen in Hrun.
  destruct (Nat.leb_spec (length images) (length l)); [lia|].
  rewrite (Z.add_comm 1) in Hrun. split; [by apply Hrun|]. split.
  - rewrite titles_of_grid_events, Hlen. apply take_ge. lia.
  - unfold py_index, len.
    destruct (Z.ltb_spec (Z.of_nat (length l)) 0); [lia|].
    destruct (Z.ltb_spec (Z.of_nat (length l)) 0); [lia|].
    rewrite Nat2Z.id. by rewrite lookup_ge_None_2.
Qed.

(** * Properties of the point overlay *)

(** With every point stampable, [draw_points] ends with the marked copy
    in the heap, whether it returns it or shows it; only the showing can
    still be refused. *)
Lemma draw_points_stamped w I a points figsize d color inline cmap axis :
  heap w !! I = Some a ->
  palette_fits color (length points) ->
  Forall2 (stampable a d) points (colors_for color (length points) (rng w)) ->
  exists r w',
    draw_points (Array I) points figsize d color inline cmap axis w = (r, w') /\
    heap w' = heap (stamped_world w a d color points) /\
    rng w' = rng (stamped_world w a d color points) /\
    (inline = false ->
       r = Ok (Some (fresh (dom (heap w)))) /\
       w' = stamped_world w a d color points).
Proof.
  intros Ha Hfit Hpts.
  rewrite (draw_points_run w I a points figsize d color inline cmap axis) by done.
  destruct inline.
  - unfold bind.
    destruct (plot_all _ (stamped_world w a d color points)) as [r1 w1] eqn:Hplot.
    apply plot_all_trace in Hplot as (made & -> & _).
    destruct r1; do 2 eexists; (split; [done|]); done.
  - do 2 eexists. split; [done|]. done.
Qed.

(** C1: [draw_points] with [inline=False] on a decoded image [I] never
    modifies [I]: however the call ends, [I] and every other array that
    existed hold what they held.  When the call returns, it returns a
    reference that did not exist before, to an array of the extents of
    [I] that equals [I] at every pixel no marker covers.  And it does
    return when numpy makes the palette (if one is needed), the
    coordinates convert and OpenCV accepts the circles. *)
Theorem draw_points_copy_on_write w I a points figsize d color cmap axis :
  heap w !! I = Some a ->
  (forall r w',
     draw_points (Array I) points figsize d color false cmap axis w = (r, w') ->
     heap w' !! I = Some a /\
     (forall l, l ∈ dom (heap w) -> heap w' !! l = heap w !! l) /\
     (forall v, r = Ok v ->
        exists out a',
          v = Some out /\ (out ∉ dom (heap w)) /\ out <> I /\
          heap w' !! out = Some a' /\
          extents a' = extents a /\
          forall x y, marked d points x y = false -> pixel a' x y = pixel a x y)) /\
  (palette_fits color (length points) ->
   Forall2 (stampable a d) points (colors_for color (length points) (rng w)) ->
   exists out w',
     draw_points (Array I) points figsize d color false cmap axis w
       = (Ok (Some out), w')).
Proof.
  intros Ha. split.
  - intros r w' Hrun.
    pose proof (is_fresh (dom (heap w))) as Hfresh.
    assert (HI : I ∈ dom (heap w)) by (apply elem_of_dom; by eexists).
    destruct (draw_points_frame w I a points figsize d color cmap axis r w' Ha Hrun)
      as (Hother & _ & Hret & a' & Ha' & Hext & Hpix).
    assert (Hdom : forall l, l ∈ dom (heap w) -> heap w' !! l = heap w !! l).
    { intros l Hl. apply Hother. intros ->. done. }
    split; [by rewrite Hdom|]. split; [done|].
    intros v Hv. exists (fresh (dom (heap w))), a'.
    split; [by apply Hret|]. split; [done|]. split; [|done].
    intros Heq. by rewrite Heq in Hfresh.
  - intros Hfit Hpts. do 2 eexists.
    by rewrite (draw_points_run w I a points figsize d color false cmap axis).
Qed.

(** C4: with [color=None], the palette of exactly [len(points)] colors is
    made once (the generator advances by the draws of one palette), and
    the marks stamped are the points' centres paired, index by index,
    with the palette's colors.  Point 0 has the first fixed color;
    point 12, when there is one, has the color made of the first three
    draws.  Stated for a palette numpy makes and circles OpenCV accepts;
    with [inline=False] the marked array is returned. *)
Theorem draw_points_auto_palette w I a points figsize d inline cmap axis :
  heap w !! I = Some a ->
  (length points - 12 <= Pos.to_nat np_capacity)%nat ->
  Forall2 (stampable a d) points (palette (length points) (rng w)) ->
  exists colors r w',
    get_colors (len points) w
      = (Ok colors, set_rng (rng w + 3 * (length points - 12)) w) /\
    length colors = length points /\
    (forall i : nat, (i < length points)%nat -> (i < 12)%nat ->
                     colors !! i = COLORS !! i) /\
    ((0 < length points)%nat -> colors !! 0%nat = Some (250, 50, 50)) /\
    ((12 < length points)%nat ->
       colors !! 12%nat =
         Some (drawn 0 255 (rng w), drawn 0 255 (rng w + 1), drawn 0 255 (rng w + 2))) /\
    draw_points (Array I) points figsize d None inline cmap axis w = (r, w') /\
    (inline = false -> r = Ok (Some (fresh (dom (heap w))))) /\
    rng w' = (rng w + 3 * (length points - 12))%nat /\
    heap w' !! fresh (dom (heap w))
      = Some (overlay d (zip (centers points) colors) a).
Proof.
  intros Ha Hfit Hpts.
  destruct (draw_points_stamped w I a points figsize d None inline cmap axis Ha)
    as (r & w' & Hrun & Hheap & Hrng & Hret); [by intros _|done|].
  exists (palette (length points) (rng w)), r, w'.
  split; [by apply get_colors_run|]. split; [apply length_palette|].
  split; [intros i; apply palette_fixed|].
  split; [intros Hn; by rewrite palette_fixed by lia|].
  split.
  { intros Hn. rewrite palette_random by lia. simpl.
    by rewrite !Nat.add_0_r. }
  split; [done|]. split; [intros Hi; by apply Hret|]. split; [done|].
  rewrite Hheap. simpl. apply lookup_insert_eq.
Qed.

(** C5: with a color triple given, every point is stamped with that
    color: the marks are the centres, each with the color, and a pixel of
    the result is the color (as the samples OpenCV stores for it) where a
    marker covers it, and the pixel of the input elsewhere.  No palette
    is made: the generator does not move, and the tape of draws does not
    enter the result.  Stated for circles OpenCV accepts; with
    [inline=False] the marked array is returned. *)
Theorem draw_points_fixed_color w I a points figsize d (c : rgb) inline cmap axis :
  heap w !! I = Some a ->
  Forall (fun p => stampable a d p c) points ->
  exists r w' a',
    draw_points (Array I) points figsize d (Some c) inline cmap axis w = (r, w') /\
    (inline = false -> r = Ok (Some (fresh (dom (heap w))))) /\
    rng w' = rng w /\
    heap w' !! fresh (dom (heap w)) = Some a' /\
    a' = overlay d (zip (centers points) (replicate (length points) c)) a /\
    forall x y,
      pixel a' x y =
        (fun px => if marked d points x y then paint c px else px) <$> pixel a x y.
Proof.
  intros Ha Hpts.
  destruct (draw_points_stamped w I a points figsize d (Some c) inline cmap axis Ha)
    as (r & w' & Hrun & Hheap & Hrng & Hret);
    [done|by apply Forall2_replicate_r|].
  exists r, w'. eexists. split; [done|]. split; [intros Hi; by apply Hret|].
  split; [done|]. split; [rewrite Hheap; simpl; apply lookup_insert_eq|].
  split; [done|]. intros x y. unfold marks_of. rewrite pixel_overlay.
  destruct (pixel a x y) as [px|]; [|done]. simpl. f_equal.
  rewrite (stamped_pixel_one_color d c).
  - by rewrite marked_zip by (by rewrite length_replicate).
  - apply Forall_forall. intros [ctr col] Hin.
    apply elem_of_zip_r, elem_of_replicate in Hin. by destruct Hin.
Qed.

(** C6: the pixel a point is stamped at has the point's coordinates with
    the fractional part dropped: each centre coordinate [n] of a point
    coordinate of value [v] lies next to [v] on the side of zero
    ([n <= v < n + 1] when [v >= 0], [n - 1 < v <= n] when [v <= 0]),
    and the marks of the call are those centres.  Stated for a palette
    numpy makes and circles OpenCV accepts; with [inline=False] the
    marked array is returned. *)
Theorem draw_points_truncates w I a points figsize d color inline cmap axis :
  heap w !! I = Some a ->
  palette_fits color (length points) ->
  Forall2 (stampable a d) points (colors_for color (length points) (rng w)) ->
  exists ctrs cols r w',
    Forall2 (fun (p : pynum * pynum) (ctr : Z * Z) =>
               exists vx vy,
                 num_value p.1 = Some vx /\ num_value p.2 = Some vy /\
                 truncation vx ctr.1 /\ truncation vy ctr.2)
            points ctrs /\
    length cols = length points /\
    draw_points (Array I) points figsize d color inline cmap axis w = (r, w') /\
    (inline = false -> r = Ok (Some (fresh (dom (heap w))))) /\
    heap w' !! fresh (dom (heap w)) = Some (overlay d (zip ctrs cols) a).
Proof.
  intros Ha Hfit Hpts.
  destruct (draw_points_stamped w I a points figsize d color inline cmap axis Ha
              Hfit Hpts) as (r & w' & Hrun & Hheap & Hrng & Hret).
  exists (centers points), (colors_for color (length points) (rng w)), r, w'.
  split; [|split; [|split; [|split]]].
  - eapply Forall2_impl; [by eapply stampable_centers|].
    intros p ctr [Hx Hy]. simpl in *.
    apply py_int_truncation in Hx as (vx & ? & ?).
    apply py_int_truncation in Hy as (vy & ? & ?).
    by exists vx, vy.
  - apply length_colors_for.
  - done.
  - intros Hi. by apply Hret.
  - rewrite Hheap. simpl. rewrite marks_of_colors. apply lookup_insert_eq.
Qed.

(** C10: the default of the [color] parameter is the triple
    [(50, 250, 50)], not [None].  A call that leaves [color] out is the
    call that passes the triple: every point is stamped in that color and
    the generator does not move.  The palette colors are used when [None]
    is passed.  The stamping is stated for a palette numpy makes and
    circles OpenCV accepts; it stands also when the showing that follows
    (the default is [inline=True]) is refused. *)
Theorem draw_points_default_color w I a points kw :
  heap w !! I = Some a ->
  let d := with_default 10 (kw_diameter kw) in
  let out := fresh (dom (heap w)) in
  let run color := call_draw_points (Array I) points (with_color color kw) w in
  run Omitted = run (Given (Some (50, 250, 50))) /\
  (Forall (fun p => stampable a d p (50, 250, 50)) points ->
   exists r w',
     run Omitted = (r, w') /\ rng w' = rng w /\
     heap w' !! out =
       Some (overlay d (zip (centers points) (replicate (length points) (50, 250, 50))) a)) /\
  ((length points - 12 <= Pos.to_nat np_capacity)%nat ->
   Forall2 (stampable a d) points (palette (length points) (rng w)) ->
   exists r w',
     run (Given None) = (r, w') /\
     heap w' !! out =
       Some (overlay d (zip (centers points) (palette (length points) (rng w))) a)).
Proof.
  intros Ha d out run. split; [done|]. split.
  - intros Hpts. unfold run, call_draw_points. simpl kw_color. simpl with_default.
    destruct (draw_points_stamped w I a points
                (with_default (PyInt 20, PyInt 30) (kw_figsize kw)) d
                (Some (50, 250, 50)) (with_default true (kw_inline kw))
                (with_default None (kw_cmap kw)) (with_default false (kw_axis kw))
                Ha) as (r & w' & Hrun & Hheap & Hrng & _);
      [done|by apply Forall2_replicate_r|].
    exists r, w'. split; [exact Hrun|]. split; [done|].
    rewrite Hheap. simpl. apply lookup_insert_eq.
  - intros Hfit Hpts. unfold run, call_draw_points. simpl kw_color. simpl with_default.
    destruct (draw_points_stamped w I a points
                (with_default (PyInt 20, PyInt 30) (kw_figsize kw)) d
                None (with_default true (kw_inline kw))
                (with_default None (kw_cmap kw)) (with_default false (kw_axis kw))
                Ha) as (r & w' & Hrun & Hheap & Hrng & _);
      [by intros _|done|].
    exists r, w'. split; [exact Hrun|].
    rewrite Hheap. simpl. apply lookup_insert_eq.
Qed.

(** * Further properties of the palette *)

(** X1: for every [n >= 0] within numpy's limits, [get_colors n] returns
    exactly [n] colors and advances the generator by three draws per
    color beyond the twelfth, and by nothing else; heap and canvas stay
    as they were.  Beyond numpy's limits the call raises numpy's
    exception and the world is as before. *)
Theorem get_colors_length (n : Z) (w : world) :
  0 <= n ->
  ((Z.to_nat n - 12 <= Pos.to_nat np_capacity)%nat ->
   exists colors,
     get_colors n w
       = (Ok colors, World (heap w) (rng w + 3 * (Z.to_nat n - 12)) (canvas w)) /\
     len colors = n) /\
  ((Pos.to_nat np_capacity < Z.to_nat n - 12)%nat ->
   get_colors n w = (Raise (thrown (np_error (Z.to_nat n - 12))), w)).
Proof.
  intros Hn. split.
  - intros Hfit. exists (palette (Z.to_nat n) (rng w)). split.
    + rewrite <- (Z2Nat.id n) at 1 by lia. by apply get_colors_run.
    + unfold len. rewrite length_palette. lia.
  - intros Hbig. unfold get_colors. change (len COLORS) with 12.
    destruct (Z.leb_spec n 12); [lia|].
    unfold bind. replace (Z.to_nat (n - 12)) with (Z.to_nat n - 12)%nat by lia.
    by rewrite randint_rows_refused.
Qed.

(** X2: a negative count raises nothing and draws nothing: [get_colors n]
    is then the slice [COLORS[:n]], the fixed palette without its last
    [-n] entries, and empty from [n = -12] down. *)
Theorem get_colors_negative_count (n : Z) (w : world) :
  n < 0 ->
  get_colors n w = (Ok (take (Z.to_nat (12 + n)) COLORS), w) /\
  (n <= -12 -> get_colors n w = (Ok [], w)).
Proof.
  intros Hn.
  assert (Hrun : get_colors n w = (Ok (take (Z.to_nat (12 + n)) COLORS), w)).
  { unfold get_colors. change (len COLORS) with 12.
    destruct (Z.leb_spec n 12); [|lia].
    unfold slice_to. destruct (Z.ltb_spec n 0); [|lia].
    by change (len COLORS) with 12. }
  split; [done|]. intros Hlow. rewrite Hrun.
  by replace (Z.to_nat (12 + n)) with 0%nat by lia.
Qed.

Lemma COLORS_valid : Forall valid_color COLORS.
Proof. unfold valid_color. repeat constructor; simpl; lia. Qed.

(** X3: whatever the count and whatever the generator draws, every color
    that [get_colors] returns has its three channels in 0..255; and it
    does return, for every count, negative ones too, whose random part
    is within numpy's limits. *)
Theorem get_colors_valid_channels (n : Z) (w : world) :
  (forall colors w',
     get_colors n w = (Ok colors, w') -> Forall valid_color colors) /\
  ((Z.to_nat n - 12 <= Pos.to_nat np_capacity)%nat ->
   exists colors w',
     get_colors n w = (Ok colors, w') /\ Forall valid_color colors).
Proof.
  assert (Hvalid : forall colors w',
            get_colors n w = (Ok colors, w') -> Forall valid_color colors).
  { intros colors w'. unfold get_colors. change (len COLORS) with 12.
    destruct (Z.leb_spec n 12) as [Hle|Hgt].
    - unfold ret. intros [= <- _].
      unfold slice_to. destruct (n <? 0); apply Forall_take, COLORS_valid.
    - unfold bind, randint_rows. destruct (_ <? _)%nat; [done|].
      rewrite fill_rows_run. unfold ret. intros [= <- _].
      apply (Forall_app_2 _ COLORS); [apply COLORS_valid|].
      eapply Forall_impl; [apply (drawn_rows_range 0 255); lia|].
      unfold valid_color. intros c. simpl. lia. }
  split; [exact Hvalid|]. intros Hfit.
  destruct (get_colors n w) as [[colors|e] w'] eqn:Hrun.
  - exists colors, w'. split; [done|]. by eapply Hvalid.
  - exfalso. revert Hrun. unfold get_colors. change (len COLORS) with 12.
    destruct (Z.leb_spec n 12) as [Hle|Hgt]; [done|].
    unfold bind, randint_rows.
    destruct (Nat.ltb_spec (Pos.to_nat np_capacity) (Z.to_nat (n - 12)));
      [lia|].
    by rewrite fill_rows_run.
Qed.
(** * Properties of input normalization *)


(** X5: on arguments that are all arrays already, [_read_image_if_need]
    returns the same references in the same order and leaves the world
    exactly as it was. *)
Theorem read_images_arrays (ls : list loc) w :
  _read_image_if_need (Array <$> ls) w = (Ok (Some <$> ls), w).
Proof.
  revert w. induction ls as [|l ls IH]; intros w; [done|].
  simpl. unfold bind at 1. unfold ret at 1. unfold bind.
  by rewrite IH.
Qed.


(** X7: normalizing a concatenation is normalizing the first list, then
    the second in the world the first left. *)
Theorem read_images_app xs ys w :
  _read_image_if_need (xs ++ ys) w =
    match _read_image_if_need xs w with
    | (Ok imgs1, w1) =>
        match _read_image_if_need ys w1 with
        | (Ok imgs2, w2) => (Ok (imgs1 ++ imgs2), w2)
        | (Raise e, w2) => (Raise e, w2)
        end
    | (Raise e, w1) => (Raise e, w1)
    end.
Proof.
  revert w. induction xs as [|image rest IH]; intros w.
  - simpl. unfold ret. by destruct (_read_image_if_need ys w) as [[?|?] ?].
  - simpl. unfold bind at 1 3.
    destruct (match image with Path s => imread s | Array l => ret (Some l) end w)
      as [[o|e] w1]; [|done].
    unfold bind. rewrite IH.
    destruct (_read_image_if_need rest w1) as [[imgs1|e] w2]; [|done].
    unfold ret. by destruct (_read_image_if_need ys w2) as [[?|?] ?].
Qed.

(** * Properties of the single image display *)



(** * Further properties of the grid display *)

(** X9: with a list of at least as many titles as images, room in the
    grid, and calls that matplotlib accepts, the grid display ends
    normally and slot [k] gets the [k]-th title of the list; titles
    beyond the last image are never read. *)
Theorem subplot_images_enough_titles images n_rows n_columns figsize
    (l : list (option string)) cmap axis layout_pad w imgs w1 :
  len images <= n_rows * n_columns ->
  (length images <= length l)%nat ->
  plt_rejects w (Figure figsize) = None ->
  _read_image_if_need images (emit (Figure figsize) w) = (Ok imgs, w1) ->
  plt_accepts w1
    (grid_events n_rows n_columns cmap axis layout_pad 1 l imgs ++ [Show]) ->
  subplot_images images n_rows n_columns figsize (TitlesList l) cmap axis
    layout_pad w
    = (Ok tt,
       emits (grid_events n_rows n_columns cmap axis layout_pad 1 l imgs
                ++ [Show]) w1) /\
  titles_of (grid_events n_rows n_columns cmap axis layout_pad 1 l imgs)
    = take (length images) l.
Proof.
  intros Hcap Hlen Hfig Hread Hacc.
  pose proof (read_images_length _ _ _ _ Hread) as Hn.
  pose proof (subplot_images_ok images n_rows n_columns figsize (TitlesList l)
                cmap axis layout_pad w imgs w1 Hcap Hfig Hread) as Hrun.
  simpl slot_titles in Hrun. rewrite Hn in Hrun.
  destruct (Nat.leb_spec (length images) (length l)); [|lia].
  split; [by apply Hrun|]. by rewrite titles_of_grid_events, Hn.
Qed.

(** X10: whenever the titles suffice and matplotlib accepts the calls,
    the slots follow the input: the call selects the slots numbered 1 to
    [len(images)] in increasing order and shows in slot [k] what the
    [k]-th image of the input resolved to, an array by its own reference
    and a path by its decoded array. *)
Theorem subplot_images_slot_order images n_rows n_columns figsize titles cmap
    axis layout_pad w imgs w1 :
  len images <= n_rows * n_columns ->
  (length images <= length (slot_titles titles (length images)))%nat ->
  plt_rejects w (Figure figsize) = None ->
  _read_image_if_need images (emit (Figure figsize) w) = (Ok imgs, w1) ->
  plt_accepts w1
    (grid_events n_rows n_columns cmap axis layout_pad 1
       (slot_titles titles (length images)) imgs ++ [Show]) ->
  exists evs,
    subplot_images images n_rows n_columns figsize titles cmap axis layout_pad w
      = (Ok tt, emits (evs ++ [Show]) w1) /\
    Forall2 (resolves (heap w) (heap w1)) images imgs /\
    subplots_of evs = (fun k : nat => Z.of_nat k + 1) <$> seq 0 (length images) /\
    imshows_of evs = imgs.
Proof.
  intros Hcap Hlen Hfig Hread Hacc.
  pose proof (read_images_length _ _ _ _ Hread) as Hn.
  pose proof (subplot_images_ok images n_rows n_columns figsize titles
                cmap axis layout_pad w imgs w1 Hcap Hfig Hread) as Hrun.
  rewrite Hn in Hrun.
  destruct (Nat.leb_spec (length images)
              (length (slot_titles titles (length images)))); [|lia].
  exists (grid_events n_rows n_columns cmap axis layout_pad 1
            (slot_titles titles (length images)) imgs).
  split; [by apply Hrun|]. split.
  - destruct (read_images_full images (emit (Figure figsize) w))
      as (imgs' & h & Hread' & _ & Hall & _).
    rewrite Hread in Hread'. by injection Hread' as -> ->.
  - split.
    + rewrite subplots_of_grid_events, Hn, Nat.min_r by lia.
      apply list_fmap_ext. intros _ k _. lia.
    + rewrite imshows_of_grid_events. apply take_ge. lia.
Qed.

(** X11: the grid display draws on no array and makes no random draw:
    however the call ends, every array that existed is unchanged and the
    generator stands where it stood; when the capacity check fails the
    whole world is as before. *)
Theorem subplot_images_frame images n_rows n_columns figsize titles cmap axis
    layout_pad w r w' :
  subplot_images images n_rows n_columns figsize titles cmap axis layout_pad w
    = (r, w') ->
  heap w ⊆ heap w' /\ rng w' = rng w /\
  (r = Raise AssertionError -> w' = w).
Proof.
  intros Hrun.
  destruct (Z.le_gt_cases (len images) (n_rows * n_columns)) as [Hcap|Hcap].
  - destruct (subplot_images_trace _ _ _ _ _ _ _ _ _ _ _ Hcap Hrun)
      as (Hheap & Hrng & Hne & _).
    done.
  - unfold subplot_images in Hrun.
    destruct (Z.leb_spec (len images) (n_rows * n_columns)); [lia|].
    unfold py_assert, bind, raise in Hrun. by injection Hrun as <- <-.
Qed.

(** * Further properties of the point overlay *)

(** X12: with [inline=True], a palette numpy makes, circles OpenCV
    accepts and plotting calls matplotlib accepts, [draw_points] returns
    [None] and shows the marked copy, not the caller's array: after the
    last stamp it calls figure, axis-off (unless [axis] is set), imshow
    of the new array and show; the array passed in is unchanged. *)
Theorem draw_points_inline_shows_copy w I a points figsize d color cmap axis :
  heap w !! I = Some a ->
  palette_fits color (length points) ->
  Forall2 (stampable a d) points (colors_for color (length points) (rng w)) ->
  plt_accepts (stamped_world w a d color points)
    (inline_events figsize cmap axis (fresh (dom (heap w)))) ->
  exists w',
    draw_points (Array I) points figsize d color true cmap axis w = (Ok None, w') /\
    canvas w' =
      canvas w ++ [Figure figsize] ++ (if axis then [] else [AxisOff])
        ++ [Imshow (Some (fresh (dom (heap w)))) cmap; Show] /\
    fresh (dom (heap w)) <> I /\
    heap w' !! I = Some a /\
    heap w' !! fresh (dom (heap w))
      = Some (overlay d (marks_of color points (rng w)) a).
Proof.
  intros Ha Hfit Hpts Hacc. eexists.
  rewrite (draw_points_run w I a points figsize d color true cmap axis) by done.
  unfold bind. rewrite (plot_all_ok _ _ Hacc). unfold ret.
  assert (Hne : fresh (dom (heap w)) <> I).
  { intros Heq. pose proof (is_fresh (dom (heap w))) as Hfresh.
    rewrite Heq in Hfresh. apply Hfresh, elem_of_dom. by eexists. }
  split; [done|]. simpl. split; [by destruct axis|]. split; [done|].
  split; [by rewrite lookup_insert_ne|apply lookup_insert_eq].
Qed.

(** X13: where markers overlap, the later point of the list decides: a
    pixel covered by the marker of one point and by no marker of a later
    point holds that point's color in the marked array.  Stated for a
    palette numpy makes and circles OpenCV accepts. *)
Theorem draw_points_later_point_wins w I a points figsize d color inline cmap
    axis before m after x y px :
  heap w !! I = Some a ->
  palette_fits color (length points) ->
  Forall2 (stampable a d) points (colors_for color (length points) (rng w)) ->
  marks_of color points (rng w) = before ++ m :: after ->
  covers d x y m.1 = true ->
  Forall (fun m' : (Z * Z) * rgb => covers d x y m'.1 = false) after ->
  pixel a x y = Some px ->
  exists r w' a',
    draw_points (Array I) points figsize d color inline cmap axis w = (r, w') /\
    heap w' !! fresh (dom (heap w)) = Some a' /\
    pixel a' x y = Some (paint m.2 px).
Proof.
  intros Ha Hfit Hpts Hmarks Hm Hafter Hpx.
  destruct (draw_points_stamped w I a points figsize d color inline cmap axis Ha
              Hfit Hpts) as (r & w' & Hrun & Hheap & _).
  exists r, w'. eexists. split; [done|].
  split; [rewrite Hheap; simpl; apply lookup_insert_eq|].
  rewrite pixel_overlay, Hpx, Hmarks. simpl.
  by rewrite stamped_pixel_last.
Qed.

(** X14: a coordinate that is NaN or infinite stops the call at its
    point: [int] raises ([ValueError] or [OverflowError]) after the
    points before it were stamped on the copy (their circles being ones
    OpenCV accepts), nothing is rendered even with [inline=True], and
    the caller's array is unchanged. *)
Theorem draw_points_bad_coordinate w I a good p rest figsize d color inline
    cmap axis e :
  heap w !! I = Some a ->
  palette_fits color (length (good ++ p :: rest)) ->
  Forall2 (stampable a d) good
    (take (length good) (colors_for color (length (good ++ p :: rest)) (rng w))) ->
  bad_coordinate p = Some e ->
  exists w',
    draw_points (Array I) (good ++ p :: rest) figsize d color inline cmap axis w
      = (Raise e, w') /\
    (e = ValueError \/ e = OverflowError) /\
    canvas w' = canvas w /\
    heap w' !! I = Some a /\
    heap w' !! fresh (dom (heap w))
      = Some (overlay d
                (take (length good)
                   (marks_of color (good ++ p :: rest) (rng w))) a).
Proof.
  intros Ha Hfit Hgood Hbad. set (out := fresh (dom (heap w))).
  set (points := good ++ p :: rest) in *.
  set (cols := colors_for color (length points) (rng w)) in *.
  assert (Hcols : length cols = length points) by apply length_colors_for.
  assert (Hpoints : length points = (length good + S (length rest))%nat).
  { unfold points. by rewrite length_app. }
  assert (Hne : out <> I).
  { intros Heq. pose proof (is_fresh (dom (heap w))) as Hfresh. fold out in Hfresh.
    rewrite Heq in Hfresh. apply Hfresh, elem_of_dom. by eexists. }
  assert (He : e = ValueError \/ e = OverflowError).
  { unfold bad_coordinate in Hbad.
    destruct (py_int p.1) eqn:Hx; [destruct (py_int p.2) eqn:Hy; [done|]|];
      injection Hbad as <-; by eapply py_int_raises. }
  assert (Hmarks : take (length good) (marks_of color points (rng w))
                   = zip (centers good) (take (length good) cols)).
  { rewrite marks_of_colors. fold cols. unfold points, centers.
    rewrite omap_app. fold (centers good).
    pose proof (length_centers _ _ _ _ Hgood) as Hlc.
    rewrite <- (take_drop (length good) cols) at 1.
    rewrite zip_with_app by (rewrite length_take; lia).
    rewrite take_app_length'; [done|].
    rewrite length_zip_with, length_take. lia. }
  assert (Hloop : forall colors w1,
    heap w1 = <[out := a]> (heap w) ->
    match color with Some _ => True | None => colors = cols end ->
    draw_loop out d color colors 0 points color w1 =
      (Raise e, set_heap (<[out := overlay d (zip (centers good)
                                               (take (length good) cols)) a]> (heap w)) w1)).
  { intros colors w1 Hw1 Hcolors. unfold points.
    rewrite (draw_loop_app out d color colors good (p :: rest) 0 color
               (take (length good) cols) w1 a).
    - destruct p as [x y]. rewrite draw_loop_cons.
      assert (Hnext : exists cc', next_color color colors (0 + len good)
                        match color with Some _ => color | None => None end = Ok cc').
      { unfold next_color. destruct color as [c|]; [by eexists|]. subst colors.
        unfold py_index, len.
        destruct (Z.ltb_spec (0 + Z.of_nat (length good)) 0); [lia|].
        destruct (Z.ltb_spec (0 + Z.of_nat (length good)) 0); [lia|].
        destruct (lookup_lt_is_Some_2 cols (Z.to_nat (0 + Z.of_nat (length good))))
          as [c Hc]; [lia|].
        rewrite Hc. by eexists. }
      destruct Hnext as [cc' ->].
      rewrite Hw1, insert_insert_eq.
      unfold bad_coordinate in Hbad. simpl in Hbad.
      destruct (py_int x) as [cx|ex]; [|by injection Hbad as ->].
      destruct (py_int y) as [cy|ey]; [done|by injection Hbad as ->].
    - rewrite Hw1. apply lookup_insert_eq.
    - done.
    - destruct color as [c|].
      + split; [done|]. unfold cols. simpl. rewrite take_replicate. f_equal. lia.
      + subst colors. split; [lia|]. intros k Hk.
        by rewrite Z2Nat.inj_0, lookup_take_lt. }
  destruct color as [c|]; eexists; unfold draw_points; unfold bind at 1;
    unfold ret at 1; unfold bind at 1; unfold ndarray_copy; rewrite Ha;
    unfold alloc; fold out; fold points; unfold bind at 1.
  - unfold ret at 1. unfold bind at 1. rewrite Hloop by done.
    split; [done|]. split; [done|]. split; [done|]. simpl.
    rewrite lookup_insert_ne by done. split; [done|].
    rewrite lookup_insert_eq. by rewrite Hmarks.
  - unfold len. rewrite get_colors_run by (by apply Hfit).
    simpl rng. unfold bind at 1. rewrite Hloop by done.
    split; [done|]. split; [done|]. split; [done|]. simpl.
    rewrite lookup_insert_ne by done. split; [done|].
    rewrite lookup_insert_eq. by rewrite Hmarks.
Qed.

(** X15: given a path that cannot be read, [draw_points] raises
    [AttributeError] (the decoder's [None] has no [copy]) before doing
    anything: no array is made, no draw, no plot. *)
Theorem draw_points_unreadable_path s points figsize d color inline cmap axis w :
  files s = None ->
  draw_points (Path s) points figsize d color inline cmap axis w
    = (Raise AttributeError, w).
Proof.
  intros Hs. unfold draw_points, imread. rewrite Hs. reflexivity.
Qed.

(** X16: given a readable path, [draw_points] decodes it into a new
    array and works on a copy of that one: with [inline=False], a
    palette numpy makes and circles OpenCV accepts, it returns a second
    new array, the decoded image with the marks, while the decoded array
    itself and every array that existed stay unmarked. *)
Theorem draw_points_readable_path s a points figsize d color cmap axis w :
  files s = Some a ->
  palette_fits color (length points) ->
  Forall2 (stampable a d) points (colors_for color (length points) (rng w)) ->
  exists decoded out w',
    draw_points (Path s) points figsize d color false cmap axis w
      = (Ok (Some out), w') /\
    decoded <> out /\
    heap w !! decoded = None /\ heap w !! out = None /\
    heap w' !! decoded = Some a /\
    heap w' !! out = Some (overlay d (marks_of color points (rng w)) a) /\
    forall l b, heap w !! l = Some b -> heap w' !! l = Some b.
Proof.
  intros Hs Hfit Hpts.
  set (l1 := fresh (dom (heap w))).
  set (w1 := set_heap (<[l1 := a]> (heap w)) w).
  assert (Hl1 : heap w !! l1 = None) by apply not_elem_of_dom, is_fresh.
  assert (Hw1 : heap w1 !! l1 = Some a) by apply lookup_insert_eq.
  assert (Heq : draw_points (Path s) points figsize d color false cmap axis w
                = draw_points (Array l1) points figsize d color false cmap axis w1).
  { unfold draw_points, imread. rewrite Hs. reflexivity. }
  set (l2 := fresh (dom (heap w1))).
  assert (Hl2 : heap w1 !! l2 = None) by apply not_elem_of_dom, is_fresh.
  assert (Hne : l1 <> l2) by congruence.
  exists l1, l2. eexists. rewrite Heq.
  rewrite (draw_points_run w1 l1 a points figsize d color false cmap axis) by done.
  fold l2. split; [done|]. split; [done|]. split; [done|].
  simpl in Hl2. rewrite lookup_insert_ne in Hl2 by done.
  split; [done|]. simpl.
  split; [by rewrite lookup_insert_ne, lookup_insert_eq|].
  split; [by rewrite lookup_insert_eq|].
  intros l b Hl.
  assert (Hn1 : l1 <> l) by (intros Heql; rewrite <- Heql in Hl; congruence).
  assert (Hn2 : l2 <> l) by (intros Heql; rewrite <- Heql in Hl; congruence).
  rewrite lookup_insert_ne by exact Hn2. by rewrite lookup_insert_ne.
Qed.

(** X17: with no points, [draw_points] with [inline=False] returns a new
    array equal to the input, whatever the diameter and the color
    policy; even with [color=None] the generator makes no draw. *)
Theorem draw_points_no_points w I a figsize d color cmap axis :
  heap w !! I = Some a ->
  draw_points (Array I) [] figsize d color false cmap axis w =
    (Ok (Some (fresh (dom (heap w)))),
     World (<[fresh (dom (heap w)) := a]> (heap w)) (rng w) (canvas w)).
Proof.
  intros Ha. unfold draw_points. unfold bind at 1. unfold ret at 1.
  unfold bind at 1. unfold ndarray_copy. rewrite Ha.
  destruct color; reflexivity.
Qed.

(** X19: a call that passes only the image and the points uses the
    defaults of the [def] line: it marks with radius argument 10 in
    [(50, 250, 50)], shows the result in a figure of size (20, 30) with
    the axes hidden and no color map, and returns [None].  Stated for
    circles OpenCV accepts and plotting calls matplotlib accepts. *)
Theorem call_draw_points_defaults w I a points :
  heap w !! I = Some a ->
  Forall (fun p => stampable a 10 p (50, 250, 50)) points ->
  plt_accepts (stamped_world w a 10 (Some (50, 250, 50)) points)
    [Figure (PyInt 20, PyInt 30); AxisOff;
     Imshow (Some (fresh (dom (heap w)))) None; Show] ->
  call_draw_points (Array I) points
    (Kwargs Omitted Omitted Omitted Omitted Omitted Omitted) w =
    (Ok None,
     World (<[fresh (dom (heap w)) :=
               overlay 10 (zip (centers points)
                             (replicate (length points) (50, 250, 50))) a]> (heap w))
           (rng w)
           (canvas w ++ [Figure (PyInt 20, PyInt 30); AxisOff;
                         Imshow (Some (fresh (dom (heap w)))) None; Show])).
Proof.
  intros Ha Hpts Hacc. unfold call_draw_points. simpl.
  rewrite (draw_points_run w I a);
    [|done|done|by apply Forall2_replicate_r].
  change [Figure (PyInt 20, PyInt 30); AxisOff;
          Imshow (Some (fresh (dom (heap w)))) None; Show]
    with (inline_events (PyInt 20, PyInt 30) None false (fresh (dom (heap w))))
    in Hacc.
  unfold bind. by rewrite (plot_all_ok _ _ Hacc).
Qed.

(** X20: marks do not accumulate over calls: a second call on the same
    array starts again from the unmarked image and returns yet another
    array, and the array the first call returned is not disturbed.
    Stated for circles OpenCV accepts. *)
Theorem draw_points_calls_independent w I a points1 points2 figsize d
    (c1 c2 : rgb) cmap axis :
  heap w !! I = Some a ->
  Forall (fun p => stampable a d p c1) points1 ->
  Forall (fun p => stampable a d p c2) points2 ->
  exists out1 w1 out2 w2,
    draw_points (Array I) points1 figsize d (Some c1) false cmap axis w
      = (Ok (Some out1), w1) /\
    draw_points (Array I) points2 figsize d (Some c2) false cmap axis w1
      = (Ok (Some out2), w2) /\
    out1 <> out2 /\
    heap w2 !! I = Some a /\
    heap w2 !! out1
      = Some (overlay d (zip (centers points1) (replicate (length points1) c1)) a) /\
    heap w2 !! out2
      = Some (overlay d (zip (centers points2) (replicate (length points2) c2)) a).
Proof.
  intros Ha Hp1 Hp2.
  set (out1 := fresh (dom (heap w))).
  assert (Hnew1 : heap w !! out1 = None) by apply not_elem_of_dom, is_fresh.
  assert (Hne1 : out1 <> I) by congruence.
  pose proof (draw_points_run w I a points1 figsize d (Some c1) false cmap axis
                Ha ltac:(done) ltac:(by apply Forall2_replicate_r)) as Hrun1.
  simpl in Hrun1. fold out1 in Hrun1.
  set (w1 := stamped_world w a d (Some c1) points1) in *.
  assert (Ha1 : heap w1 !! I = Some a).
  { unfold w1, stamped_world. simpl. fold out1. by rewrite lookup_insert_ne. }
  set (out2 := fresh (dom (heap w1))).
  assert (Hnew2 : heap w1 !! out2 = None) by apply not_elem_of_dom, is_fresh.
  assert (Hne2 : out2 <> I) by congruence.
  assert (Hne : out1 <> out2).
  { intros Heq. rewrite <- Heq in Hnew2. unfold w1, stamped_world in Hnew2.
    simpl in Hnew2. fold out1 in Hnew2. by rewrite lookup_insert_eq in Hnew2. }
  pose proof (draw_points_run w1 I a points2 figsize d (Some c2) false cmap axis
                Ha1 ltac:(done) ltac:(by apply Forall2_replicate_r)) as Hrun2.
  simpl in Hrun2. fold out2 in Hrun2.
  exists out1, w1, out2. eexists.
  split; [exact Hrun1|]. split; [exact Hrun2|]. split; [done|].
  unfold stamped_world. simpl. fold out2. unfold w1, stamped_world. simpl. fold out1.
  split; [by rewrite !lookup_insert_ne|].
  split; [by rewrite lookup_insert_ne, lookup_insert_eq|].
  by rewrite lookup_insert_eq.
Qed.

(** X21: drawing composes: marking the array a first call returned with
    further points gives, pixel for pixel, the array one call makes of
    all the points in order (same diameter, one color).  Stated for
    circles OpenCV accepts. *)
Theorem draw_points_composes w I a points1 points2 figsize d (c : rgb) cmap axis :
  heap w !! I = Some a ->
  Forall (fun p => stampable a d p c) points1 ->
  Forall (fun p => stampable a d p c) points2 ->
  exists out1 w1 out2 w2 out w',
    draw_points (Array I) points1 figsize d (Some c) false cmap axis w
      = (Ok (Some out1), w1) /\
    draw_points (Array out1) points2 figsize d (Some c) false cmap axis w1
      = (Ok (Some out2), w2) /\
    draw_points (Array I) (points1 ++ points2) figsize d (Some c) false cmap axis w
      = (Ok (Some out), w') /\
    is_Some (heap w2 !! out2) /\
    heap w2 !! out2 = heap w' !! out.
Proof.
  intros Ha Hp1 Hp2.
  assert (H1 : Forall2 (stampable a d) points1 (replicate (length points1) c))
    by (by apply Forall2_replicate_r).
  assert (H2 : Forall2 (stampable a d) points2 (replicate (length points2) c))
    by (by apply Forall2_replicate_r).
  pose proof (draw_points_run w I a points1 figsize d (Some c) false cmap axis
                Ha ltac:(done) H1) as Hrun1.
  simpl in Hrun1.
  set (out1 := fresh (dom (heap w))) in *.
  set (a1 := overlay d (marks_of (Some c) points1 (rng w)) a).
  set (w1 := stamped_world w a d (Some c) points1) in *.
  assert (Ha1 : heap w1 !! out1 = Some a1) by apply lookup_insert_eq.
  assert (H2' : Forall2 (stampable a1 d) points2 (replicate (length points2) c)).
  { eapply Forall2_impl; [exact H2|]. intros p col.
    apply stampable_extents. apply extents_overlay. }
  pose proof (draw_points_run w1 out1 a1 points2 figsize d (Some c) false cmap
                axis Ha1 ltac:(done) H2') as Hrun2.
  simpl in Hrun2.
  pose proof (draw_points_run w I a (points1 ++ points2) figsize d (Some c) false
                cmap axis Ha ltac:(done)
                ltac:(apply Forall2_replicate_r; try done; by apply Forall_app_2))
    as Hrun.
  simpl in Hrun.
  do 6 eexists. split; [exact Hrun1|]. split; [exact Hrun2|]. split; [exact Hrun|].
  unfold stamped_world. simpl. rewrite !lookup_insert_eq.
  split; [by eexists|]. f_equal.
  unfold a1, marks_of, centers. rewrite omap_app, length_app, replicate_add.
  fold (centers points1) (centers points2).
  rewrite zip_with_app
    by (rewrite (length_centers _ _ _ _ H1); by rewrite length_replicate).
  unfold overlay. by rewrite foldl_app.
Qed.

End Show.

(** * The sample libraries *)

(** On the sample OpenCV, a circle is accepted as soon as it is accepted
    on one array of the shape. *)
Lemma sample_stampable a d p col ctr :
  center_of p = Some ctr ->
  sample_cv_rejects a ctr d col = None ->
  stampable sample_cv_rejects a d p col.
Proof.
  intros Hctr Hacc. exists ctr. split; [exact Hctr|].
  intros a' Ha'. unfold sample_cv_rejects in *. by rewrite Ha'.
Qed.

Ltac sample_stamps :=
  repeat first [ apply Forall2_nil_2 | apply Forall_nil_2
               | apply Forall2_cons_2 | apply Forall_cons_2 ];
  try (eapply sample_stampable; reflexivity).

Ltac sample_plots := vm_compute; repeat split.

(** * The statements at sample inputs *)

Example py_int_2_75 : py_int f2_75 = Ok 2.
Proof. reflexivity. Qed.

Example py_int_0_75 : py_int f0_75 = Ok 0.
Proof. reflexivity. Qed.

Example py_int_minus_2_75 : py_int fm2_75 = Ok (-2).
Proof. reflexivity. Qed.

Example py_int_3_5 : py_int f3_5 = Ok 3.
Proof. reflexivity. Qed.

Example py_int_nan : py_int (PyFloat S754_nan) = Raise ValueError.
Proof. reflexivity. Qed.

Example get_colors_14_sample :
  (get_colors sample_tape sample_np_capacity sample_np_error 14 sample_world).1
    = Ok (COLORS ++ [(254, 44, 89); (134, 179, 224)]).
Proof. reflexivity. Qed.

(** A raw draw of 255 comes out of [randint(0, 255)] as 0. *)
Example randint_wraps_255 :
  (randint (fun _ => 255) 0 255 sample_world).1 = Ok 0.
Proof. reflexivity. Qed.

(** [get_colors(2**64)]: numpy refuses the size, nothing is drawn. *)
Example get_colors_beyond_numpy :
  get_colors sample_tape sample_np_capacity sample_np_error (2 ^ 64) sample_world
    = (Raise ValueError, sample_world).
Proof.
  unfold get_colors. change (len COLORS) with 12.
  destruct (Z.leb_spec (2 ^ 64) 12) as [Hle|_]; [lia|].
  unfold bind. rewrite randint_rows_refused; [reflexivity|].
  change (Pos.to_nat sample_np_capacity) with 1000%nat. lia.
Qed.

Example draw_points_sample :
  let r := draw_points sample_tape sample_files round_disk sample_np_capacity
             sample_np_error sample_cv_rejects sample_plt_rejects (Array 1)
             sample_points sample_figsize 0 None false None false sample_world in
  r.1 = Ok (Some 2%positive) /\
  heap r.2 !! 1%positive = Some (black 3 4) /\
  heap r.2 !! 2%positive =
    Some [ [[0; 0; 0]; [0; 0; 0]; [250; 50; 50]; [50; 250; 50]];
           [[0; 0; 0]; [0; 0; 0]; [0; 0; 0]; [0; 0; 0]];
           [[0; 0; 0]; [0; 0; 0]; [0; 0; 0]; [0; 0; 0]] ].
Proof. vm_compute. auto. Qed.

(** A color component of [2 ** 31] or more is stored as 0, one between
    256 and that as 255, a negative one as 0. *)
Example draw_points_wide_color :
  let r := draw_points sample_tape sample_files round_disk sample_np_capacity
             sample_np_error sample_cv_rejects sample_plt_rejects (Array 1)
             [(f2_75, f0_75)] sample_figsize 0 (Some (2 ^ 31, 300, -5)) false
             None false sample_world in
  r.1 = Ok (Some 2%positive) /\
  (a ← heap r.2 !! 2%positive; pixel a 2 0) = Some [0; 255; 0].
Proof. vm_compute. auto. Qed.

(** On an image without pixels, and on one of five channels, the sample
    OpenCV refuses the first circle: the call raises and returns no
    array. *)
Example draw_points_no_pixels :
  (draw_points sample_tape sample_files round_disk sample_np_capacity
     sample_np_error sample_cv_rejects sample_plt_rejects (Array 1)
     [(f2_75, f0_75)] sample_figsize 0 (Some (250, 50, 50)) false None false
     (World {[ 1%positive := [] ]} 0 [])).1
    = Raise CvError.
Proof. reflexivity. Qed.

Example draw_points_five_channels :
  (draw_points sample_tape sample_files round_disk sample_np_capacity
     sample_np_error sample_cv_rejects sample_plt_rejects (Array 1)
     [(f2_75, f0_75)] sample_figsize 0 (Some (250, 50, 50)) false None false
     (World {[ 1%positive := [[[0; 0; 0; 0; 0]]] ]} 0 [])).1
    = Raise CvError.
Proof. reflexivity. Qed.

(** [show_image] of a path that cannot be read: the sample matplotlib
    refuses [imshow(None)], and [show] is not reached. *)
Example show_image_unreadable_path :
  let r := show_image sample_files sample_plt_rejects (Path "missing.png")
             sample_figsize None None false sample_world in
  r.1 = Raise TypeError /\
  canvas r.2 = [Figure sample_figsize; Title None; AxisOff; Imshow None None].
Proof. vm_compute. auto. Qed.

Example subplot_images_five_in_four :
  subplot_images sample_files sample_plt_rejects (replicate 5 (Array 1)) 2 2
    sample_figsize TitlesNone None false (PyInt 1, PyInt 1) sample_world
    = (Raise AssertionError, sample_world).
Proof. reflexivity. Qed.

(** An unreadable path in the second slot: the sample matplotlib refuses
    [imshow(None)] there, and neither the third slot nor [show] is
    reached. *)
Example subplot_images_unreadable_path :
  let r := subplot_images sample_files sample_plt_rejects
             [Array 1; Path "missing.png"; Array 1] 2 2 sample_figsize
             TitlesNone None false (PyInt 1, PyInt 1) sample_world in
  r.1 = Raise TypeError /\
  canvas r.2 =
    [ Figure sample_figsize;
      Subplot 2 2 1; Title None; AxisOff; TightLayout (PyInt 1) (PyInt 1);
      Imshow (Some 1%positive) None;
      Subplot 2 2 2; Title None; AxisOff; TightLayout (PyInt 1) (PyInt 1);
      Imshow None None ].
Proof. vm_compute. auto. Qed.

(** Two titles, three images and an unreadable path in the second slot:
    the call ends in that slot, before [titles] is indexed out of
    range. *)
Example subplot_images_unreadable_before_short_titles :
  (subplot_images sample_files sample_plt_rejects
     [Array 1; Path "missing.png"; Array 1] 2 2 sample_figsize
     (TitlesList [Some "a"; Some "b"]) None false (PyInt 1, PyInt 1)
     sample_world).1
    = Raise TypeError.
Proof. reflexivity. Qed.

Example subplot_images_two_titles_three_images :
  let r := subplot_images sample_files sample_plt_rejects
             [Array 1; Path "a.png"; Array 1] 2 2
             sample_figsize (TitlesList [Some "a"; Some "b"]) None false
             (PyInt 1, PyInt 1) sample_world in
  r.1 = Raise IndexError /\
  canvas r.2 =
    [ Figure sample_figsize;
      Subplot 2 2 1; Title (Some "a"); AxisOff; TightLayout (PyInt 1) (PyInt 1);
      Imshow (Some 1%positive) None;
      Subplot 2 2 2; Title (Some "b"); AxisOff; TightLayout (PyInt 1) (PyInt 1);
      Imshow (Some 2%positive) None;
      Subplot 2 2 3 ].
Proof. vm_compute. auto. Qed.

Lemma get_colors_fixed_prefix_witness :
  0 <= 3 <= 12 /\
  get_colors sample_tape sample_np_capacity sample_np_error 3 sample_world
    = (Ok (take (Z.to_nat 3) COLORS), sample_world).
Proof.
  split; [lia|].
  apply (get_colors_fixed_prefix sample_tape sample_np_capacity sample_np_error
           3 sample_world).
  lia.
Defined.

Lemma subplot_images_capacity_check_witness :
  (len (replicate 5 (Array 1)) > 2 * 2 /\
   subplot_images sample_files sample_plt_rejects (replicate 5 (Array 1)) 2 2
     sample_figsize TitlesNone None false (PyInt 1, PyInt 1) sample_world
     = (Raise AssertionError, sample_world)) /\
  (len (replicate 4 (Array 1)) <= 2 * 2 /\
   exists r w' evs,
     subplot_images sample_files sample_plt_rejects (replicate 4 (Array 1)) 2 2
       sample_figsize TitlesNone None false (PyInt 1, PyInt 1) sample_world
       = (r, w') /\
     r <> Raise AssertionError /\
     canvas w' = canvas sample_world ++ Figure sample_figsize :: evs).
Proof.
  split; (split; [reflexivity || (vm_compute; discriminate)|]).
  - apply (proj1 (subplot_images_capacity_check sample_files sample_plt_rejects
                    (replicate 5 (Array 1)) 2 2 sample_figsize TitlesNone None
                    false (PyInt 1, PyInt 1) sample_world)).
    reflexivity.
  - apply (proj2 (subplot_images_capacity_check sample_files sample_plt_rejects
                    (replicate 4 (Array 1)) 2 2 sample_figsize TitlesNone None
                    false (PyInt 1, PyInt 1) sample_world)).
    vm_compute. discriminate.
Defined.

Lemma subplot_images_broadcasts_title_witness :
  len [Array 1; Path "a.png"; Array 1] <= 2 * 2 /\
  exists w',
    subplot_images sample_files sample_plt_rejects
      [Array 1; Path "a.png"; Array 1] 2 2 sample_figsize (TitlesStr "grid")
      None false (PyInt 1, PyInt 1) sample_world = (Ok tt, w') /\
    titles_of (grid_events 2 2 None false (PyInt 1, PyInt 1) 1
                 (replicate 3 (Some "grid"))
                 [Some 1%positive; Some 2%positive; Some 1%positive])
      = replicate 3 (Some "grid").
Proof.
  assert (H : len [Array 1; Path "a.png"; Array 1] <= 2 * 2)
    by (vm_compute; discriminate).
  split; [exact H|].
  destruct (proj2 (subplot_images_broadcasts_title sample_files
                     sample_plt_rejects [Array 1; Path "a.png"; Array 1] 2 2
                     sample_figsize (Some "grid") None false (PyInt 1, PyInt 1)
                     sample_world H)
              [Some 1%positive; Some 2%positive; Some 1%positive]
              (World {[ 1%positive := black 3 4; 2%positive := black 2 2 ]} 0
                     [Figure sample_figsize]))
    as (_ & Hrun & Htitles);
    [reflexivity | reflexivity | sample_plots |].
  eexists. split; [exact Hrun|exact Htitles].
Defined.

Lemma subplot_images_short_titles_witness :
  len [Array 1; Path "a.png"; Array 1] <= 2 * 2 /\
  (length [Some "a"; Some "b"] < length [Array 1; Path "a.png"; Array 1])%nat /\
  exists w',
    subplot_images sample_files sample_plt_rejects
      [Array 1; Path "a.png"; Array 1] 2 2 sample_figsize
      (TitlesList [Some "a"; Some "b"]) None false (PyInt 1, PyInt 1)
      sample_world = (Raise IndexError, w').
Proof.
  assert (H : len [Array 1; Path "a.png"; Array 1] <= 2 * 2)
    by (vm_compute; discriminate).
  assert (H' : (length [Some "a"; Some "b"]
                < length [Array 1; Path "a.png"; Array 1])%nat) by (simpl; lia).
  split; [exact H|]. split; [exact H'|].
  destruct (subplot_images_short_titles sample_files sample_plt_rejects
              [Array 1; Path "a.png"; Array 1] 2 2 sample_figsize
              [Some "a"; Some "b"] None false (PyInt 1, PyInt 1) sample_world
              [Some 1%positive; Some 2%positive; Some 1%positive]
              (World {[ 1%positive := black 3 4; 2%positive := black 2 2 ]} 0
                     [Figure sample_figsize])
              H H')
    as (_ & Hrun & _);
    [reflexivity | reflexivity | sample_plots |].
  eexists. exact Hrun.
Defined.

Lemma draw_points_copy_on_write_witness :
  heap sample_world !! 1%positive = Some (black 3 4) /\
  (forall r w',
     draw_points sample_tape sample_files round_disk sample_np_capacity
       sample_np_error sample_cv_rejects sample_plt_rejects (Array 1)
       sample_points sample_figsize 0 None false None false sample_world
       = (r, w') ->
     heap w' !! 1%positive = Some (black 3 4)) /\
  exists out w',
    draw_points sample_tape sample_files round_disk sample_np_capacity
      sample_np_error sample_cv_rejects sample_plt_rejects (Array 1)
      sample_points sample_figsize 0 None false None false sample_world
      = (Ok (Some out), w').
Proof.
  assert (H : heap sample_world !! 1%positive = Some (black 3 4)) by reflexivity.
  split; [exact H|].
  destruct (draw_points_copy_on_write sample_tape sample_files round_disk
              sample_np_capacity sample_np_error sample_cv_rejects
              sample_plt_rejects sample_world 1 (black 3 4) sample_points
              sample_figsize 0 None None false H) as [Hframe Hret].
  split.
  - intros r w' Hrun. exact (proj1 (Hframe r w' Hrun)).
  - apply Hret; [intros _; simpl; lia | sample_stamps].
Defined.

Lemma draw_points_auto_palette_witness :
  heap sample_world !! 1%positive = Some (black 3 4) /\
  exists colors w',
    length colors = 13%nat /\
    colors !! 0%nat = Some (250, 50, 50) /\
    colors !! 12%nat =
      Some (drawn sample_tape 0 255 0, drawn sample_tape 0 255 1,
            drawn sample_tape 0 255 2) /\
    draw_points sample_tape sample_files round_disk sample_np_capacity
      sample_np_error sample_cv_rejects sample_plt_rejects (Array 1)
      (replicate 13 (f2_75, f0_75)) sample_figsize 0 None false None false
      sample_world = (Ok (Some 2%positive), w') /\
    rng w' = 3%nat.
Proof.
  assert (H : heap sample_world !! 1%positive = Some (black 3 4)) by reflexivity.
  split; [exact H|].
  destruct (draw_points_auto_palette sample_tape sample_files round_disk
              sample_np_capacity sample_np_error sample_cv_rejects
              sample_plt_rejects sample_world 1 (black 3 4)
              (replicate 13 (f2_75, f0_75)) sample_figsize 0 false None false H)
    as (colors & r & w' & _ & Hlen & _ & H0 & H12 & Hrun & Hr & Hrng & _);
    [simpl; lia | sample_stamps |].
  exists colors, w'.
  split; [exact Hlen|]. split; [apply H0; simpl; lia|].
  split; [apply H12; simpl; lia|].
  split; [rewrite (Hr eq_refl) in Hrun; exact Hrun|exact Hrng].
Defined.

Lemma draw_points_fixed_color_witness :
  heap sample_world !! 1%positive = Some (black 3 4) /\
  exists w' a',
    draw_points sample_tape sample_files round_disk sample_np_capacity
      sample_np_error sample_cv_rejects sample_plt_rejects (Array 1)
      sample_points sample_figsize 0 (Some (250, 50, 50)) false None false
      sample_world = (Ok (Some 2%positive), w') /\
    rng w' = 0%nat /\
    heap w' !! 2%positive = Some a' /\
    pixel a' 2 0 = Some [250; 50; 50] /\
    pixel a' 3 0 = Some [250; 50; 50] /\
    pixel a' 1 0 = Some [0; 0; 0].
Proof.
  assert (H : heap sample_world !! 1%positive = Some (black 3 4)) by reflexivity.
  split; [exact H|].
  destruct (draw_points_fixed_color sample_tape sample_files round_disk
              sample_np_capacity sample_np_error sample_cv_rejects
              sample_plt_rejects sample_world 1 (black 3 4) sample_points
              sample_figsize 0 (250, 50, 50) false None false H)
    as (r & w' & a' & Hrun & Hr & Hrng & Hout & _ & Hpix);
    [sample_stamps|].
  exists w', a'. split; [rewrite (Hr eq_refl) in Hrun; exact Hrun|].
  split; [exact Hrng|]. split; [exact Hout|].
  split; [rewrite Hpix; reflexivity|].
  split; rewrite Hpix; reflexivity.
Defined.

Lemma draw_points_truncates_witness :
  heap sample_world !! 1%positive = Some (black 3 4) /\
  exists ctrs cols w',
    Forall2 (fun (p : pynum * pynum) (ctr : Z * Z) =>
               exists vx vy,
                 num_value p.1 = Some vx /\ num_value p.2 = Some vy /\
                 truncation vx ctr.1 /\ truncation vy ctr.2)
            sample_points ctrs /\
    length cols = 2%nat /\
    draw_points sample_tape sample_files round_disk sample_np_capacity
      sample_np_error sample_cv_rejects sample_plt_rejects (Array 1)
      sample_points sample_figsize 0 None false None false sample_world
      = (Ok (Some 2%positive), w') /\
    heap w' !! 2%positive = Some (overlay round_disk 0 (zip ctrs cols) (black 3 4)).
Proof.
  assert (H : heap sample_world !! 1%positive = Some (black 3 4)) by reflexivity.
  split; [exact H|].
  destruct (draw_points_truncates sample_tape sample_files round_disk
              sample_np_capacity sample_np_error sample_cv_rejects
              sample_plt_rejects sample_world 1 (black 3 4) sample_points
              sample_figsize 0 None false None false H)
    as (ctrs & cols & r & w' & Htr & Hlen & Hrun & Hr & Hout);
    [intros _; simpl; lia | sample_stamps |].
  exists ctrs, cols, w'. split; [exact Htr|]. split; [exact Hlen|].
  split; [rewrite (Hr eq_refl) in Hrun; exact Hrun|exact Hout].
Defined.

Lemma draw_points_default_color_witness :
  heap sample_world !! 1%positive = Some (black 3 4) /\
  call_draw_points sample_tape sample_files round_disk sample_np_capacity
    sample_np_error sample_cv_rejects sample_plt_rejects (Array 1) sample_points
    (with_color Omitted sample_kwargs) sample_world
  = call_draw_points sample_tape sample_files round_disk sample_np_capacity
      sample_np_error sample_cv_rejects sample_plt_rejects (Array 1)
      sample_points (with_color (Given (Some (50, 250, 50))) sample_kwargs)
      sample_world.
Proof.
  assert (H : heap sample_world !! 1%positive = Some (black 3 4)) by reflexivity.
  split; [exact H|].
  exact (proj1 (draw_points_default_color sample_tape sample_files round_disk
                  sample_np_capacity sample_np_error sample_cv_rejects
                  sample_plt_rejects sample_world 1 (black 3 4) sample_points
                  sample_kwargs H)).
Defined.

(** * Reproducibility *)

(** X18: the generator enters the overlay only through the colors beyond
    the twelfth: with a color given, or with at most twelve points, the
    result of [draw_points] is the same under every tape of draws, for
    every input, also one that makes the call raise. *)
Theorem draw_points_tape_irrelevant (tape1 tape2 : nat -> Z) files disk
    np_capacity np_error cv_rejects plt_rejects image
    points figsize d color inline cmap axis w :
  (color = None -> (length points <= 12)%nat) ->
  draw_points tape1 files disk np_capacity np_error cv_rejects plt_rejects
    image points figsize d color inline cmap axis w
    = draw_points tape2 files disk np_capacity np_error cv_rejects plt_rejects
        image points figsize d color inline cmap axis w.
Proof.
  intros Hn. unfold draw_points. destruct color as [c|]; [reflexivity|].
  specialize (Hn eq_refl).
  assert (Hcolors : get_colors tape1 np_capacity np_error (len points)
                    = get_colors tape2 np_capacity np_error (len points)).
  { unfold get_colors, len. change (length COLORS) with 12%nat.
    by destruct (Z.leb_spec (Z.of_nat (length points)) (Z.of_nat 12)); [|lia]. }
  by rewrite Hcolors.
Qed.

(** * The further properties at sample inputs *)

Lemma get_colors_length_witness :
  0 <= 14 /\
  exists colors,
    get_colors sample_tape sample_np_capacity sample_np_error 14 sample_world
      = (Ok colors, World (heap sample_world) (rng sample_world + 3 * (Z.to_nat 14 - 12))
                      (canvas sample_world)) /\
    len colors = 14.
Proof.
  split; [lia|].
  apply (proj1 (get_colors_length sample_tape sample_np_capacity sample_np_error
                  14 sample_world ltac:(lia))).
  vm_compute. lia.
Defined.

Lemma get_colors_negative_count_witness :
  -2 < 0 /\
  get_colors sample_tape sample_np_capacity sample_np_error (-2) sample_world
    = (Ok (take (Z.to_nat (12 + -2)) COLORS), sample_world).
Proof.
  split; [lia|].
  apply (proj1 (get_colors_negative_count sample_tape sample_np_capacity
                  sample_np_error (-2) sample_world ltac:(lia))).
Defined.

Lemma get_colors_valid_channels_witness :
  (Z.to_nat 14 - 12 <= Pos.to_nat sample_np_capacity)%nat /\
  exists colors w',
    get_colors sample_tape sample_np_capacity sample_np_error 14 sample_world
      = (Ok colors, w') /\
    Forall valid_color colors.
Proof.
  assert (H : (Z.to_nat 14 - 12 <= Pos.to_nat sample_np_capacity)%nat)
    by (vm_compute; lia).
  split; [exact H|].
  exact (proj2 (get_colors_valid_channels sample_tape sample_np_capacity
                  sample_np_error 14 sample_world) H).
Defined.



Lemma subplot_images_enough_titles_witness :
  len [Array 1; Path "a.png"] <= 2 * 2 /\
  (length [Array 1; Path "a.png"] <= length [Some "a"; None; Some "c"])%nat /\
  exists w',
    subplot_images sample_files sample_plt_rejects [Array 1; Path "a.png"] 2 2
      sample_figsize (TitlesList [Some "a"; None; Some "c"]) None false
      (PyInt 1, PyInt 1) sample_world = (Ok tt, w') /\
    titles_of (grid_events 2 2 None false (PyInt 1, PyInt 1) 1
                 [Some "a"; None; Some "c"] [Some 1%positive; Some 2%positive])
      = take (length [Array 1; Path "a.png"]) [Some "a"; None; Some "c"].
Proof.
  assert (H : len [Array 1; Path "a.png"] <= 2 * 2) by (vm_compute; discriminate).
  assert (H' : (length [Array 1; Path "a.png"]
                <= length [Some "a"; None; Some "c"])%nat) by (simpl; lia).
  split; [exact H|]. split; [exact H'|].
  destruct (subplot_images_enough_titles sample_files sample_plt_rejects
              [Array 1; Path "a.png"] 2 2 sample_figsize
              [Some "a"; None; Some "c"] None false (PyInt 1, PyInt 1)
              sample_world [Some 1%positive; Some 2%positive]
              (World {[ 1%positive := black 3 4; 2%positive := black 2 2 ]} 0
                     [Figure sample_figsize])
              H H')
    as (Hrun & Htitles);
    [reflexivity | reflexivity | sample_plots |].
  eexists. split; [exact Hrun|exact Htitles].
Defined.

Lemma subplot_images_slot_order_witness :
  len [Array 1; Path "a.png"; Array 1] <= 2 * 2 /\
  exists w' evs,
    subplot_images sample_files sample_plt_rejects
      [Array 1; Path "a.png"; Array 1] 2 2 sample_figsize TitlesNone None false
      (PyInt 1, PyInt 1) sample_world = (Ok tt, w') /\
    subplots_of evs = [1; 2; 3] /\
    imshows_of evs = [Some 1%positive; Some 2%positive; Some 1%positive].
Proof.
  assert (H : len [Array 1; Path "a.png"; Array 1] <= 2 * 2)
    by (vm_compute; discriminate).
  split; [exact H|].
  destruct (subplot_images_slot_order sample_files sample_plt_rejects
              [Array 1; Path "a.png"; Array 1] 2 2 sample_figsize TitlesNone
              None false (PyInt 1, PyInt 1) sample_world
              [Some 1%positive; Some 2%positive; Some 1%positive]
              (World {[ 1%positive := black 3 4; 2%positive := black 2 2 ]} 0
                     [Figure sample_figsize])
              H)
    as (evs & Hrun & _ & Hslots & Hshown);
    [simpl; lia | reflexivity | reflexivity | sample_plots |].
  eexists. exists evs. split; [exact Hrun|]. split; [exact Hslots|exact Hshown].
Defined.

Lemma subplot_images_frame_witness :
  subplot_images sample_files sample_plt_rejects (replicate 5 (Array 1)) 2 2
    sample_figsize TitlesNone None false (PyInt 1, PyInt 1) sample_world
    = (Raise AssertionError, sample_world) /\
  heap sample_world ⊆ heap sample_world /\ rng sample_world = rng sample_world.
Proof.
  assert (H : subplot_images sample_files sample_plt_rejects
                (replicate 5 (Array 1)) 2 2 sample_figsize TitlesNone None false
                (PyInt 1, PyInt 1) sample_world
              = (Raise AssertionError, sample_world))
    by reflexivity.
  split; [exact H|].
  destruct (subplot_images_frame sample_files sample_plt_rejects
              (replicate 5 (Array 1)) 2 2 sample_figsize TitlesNone None false
              (PyInt 1, PyInt 1) sample_world _ _ H) as (Hheap & Hrng & _).
  by split.
Defined.

Lemma draw_points_inline_shows_copy_witness :
  heap sample_world !! 1%positive = Some (black 3 4) /\
  exists w',
    draw_points sample_tape sample_files round_disk sample_np_capacity
      sample_np_error sample_cv_rejects sample_plt_rejects (Array 1)
      sample_points sample_figsize 0 None true None false sample_world
      = (Ok None, w') /\
    canvas w' =
      canvas sample_world ++ [Figure sample_figsize] ++ [AxisOff]
        ++ [Imshow (Some (fresh (dom (heap sample_world)))) None; Show] /\
    heap w' !! 1%positive = Some (black 3 4).
Proof.
  assert (H : heap sample_world !! 1%positive = Some (black 3 4)) by reflexivity.
  split; [exact H|].
  destruct (draw_points_inline_shows_copy sample_tape sample_files round_disk
              sample_np_capacity sample_np_error sample_cv_rejects
              sample_plt_rejects sample_world 1 (black 3 4) sample_points
              sample_figsize 0 None None false H)
    as (w' & Hrun & Hcanvas & _ & Hkeep & _);
    [intros _; simpl; lia | sample_stamps | sample_plots |].
  by exists w'.
Defined.

Lemma draw_points_later_point_wins_witness :
  heap sample_world !! 1%positive = Some (black 3 4) /\
  exists r w' a',
    draw_points sample_tape sample_files round_disk sample_np_capacity
      sample_np_error sample_cv_rejects sample_plt_rejects (Array 1)
      [(f2_75, f0_75); (f2_75, f0_75)] sample_figsize 0 None false None false
      sample_world = (r, w') /\
    heap w' !! fresh (dom (heap sample_world)) = Some a' /\
    pixel a' 2 0 = Some (paint (50, 250, 50) [0; 0; 0]).
Proof.
  assert (H : heap sample_world !! 1%positive = Some (black 3 4)) by reflexivity.
  split; [exact H|].
  apply (draw_points_later_point_wins sample_tape sample_files round_disk
           sample_np_capacity sample_np_error sample_cv_rejects
           sample_plt_rejects sample_world 1 (black 3 4)
           [(f2_75, f0_75); (f2_75, f0_75)] sample_figsize 0 None false None
           false [((2, 0), (250, 50, 50))] ((2, 0), (50, 250, 50)) [] 2 0
           [0; 0; 0] H);
    [intros _; simpl; lia | sample_stamps | reflexivity | reflexivity
    | constructor | reflexivity].
Defined.

Lemma draw_points_bad_coordinate_witness :
  heap sample_world !! 1%positive = Some (black 3 4) /\
  bad_coordinate (f2_75, PyFloat S754_nan) = Some ValueError /\
  exists w',
    draw_points sample_tape sample_files round_disk sample_np_capacity
      sample_np_error sample_cv_rejects sample_plt_rejects (Array 1)
      (sample_points ++ (f2_75, PyFloat S754_nan) :: [(f2_75, f0_75)])
      sample_figsize 0 None true None false sample_world
      = (Raise ValueError, w') /\
    canvas w' = canvas sample_world /\
    heap w' !! 1%positive = Some (black 3 4).
Proof.
  assert (H : heap sample_world !! 1%positive = Some (black 3 4)) by reflexivity.
  assert (Hb : bad_coordinate (f2_75, PyFloat S754_nan) = Some ValueError)
    by reflexivity.
  split; [exact H|]. split; [exact Hb|].
  destruct (draw_points_bad_coordinate sample_tape sample_files round_disk
              sample_np_capacity sample_np_error sample_cv_rejects
              sample_plt_rejects sample_world 1 (black 3 4) sample_points
              (f2_75, PyFloat S754_nan) [(f2_75, f0_75)] sample_figsize 0 None
              true None false ValueError H)
    as (w' & Hrun & _ & Hcanvas & Hkeep & _);
    [intros _; simpl; lia | sample_stamps | exact Hb |].
  by exists w'.
Defined.

Lemma draw_points_unreadable_path_witness :
  sample_files "missing.png" = None /\
  draw_points sample_tape sample_files round_disk sample_np_capacity
    sample_np_error sample_cv_rejects sample_plt_rejects (Path "missing.png")
    sample_points sample_figsize 0 None true None false sample_world
    = (Raise AttributeError, sample_world).
Proof.
  split; [reflexivity|].
  apply (draw_points_unreadable_path sample_tape sample_files round_disk
           sample_np_capacity sample_np_error sample_cv_rejects
           sample_plt_rejects).
  reflexivity.
Defined.

Lemma draw_points_readable_path_witness :
  sample_files "a.png" = Some (black 2 2) /\
  exists decoded out w',
    draw_points sample_tape sample_files round_disk sample_np_capacity
      sample_np_error sample_cv_rejects sample_plt_rejects (Path "a.png")
      [(f0_75, f0_75)] sample_figsize 0 None false None false sample_world
      = (Ok (Some out), w') /\
    decoded <> out /\
    heap w' !! decoded = Some (black 2 2).
Proof.
  assert (H : sample_files "a.png" = Some (black 2 2)) by reflexivity.
  split; [exact H|].
  destruct (draw_points_readable_path sample_tape sample_files round_disk
              sample_np_capacity sample_np_error sample_cv_rejects
              sample_plt_rejects "a.png" (black 2 2) [(f0_75, f0_75)]
              sample_figsize 0 None None false sample_world H)
    as (decoded & out & w' & Hrun & Hne & _ & _ & Hdec & _);
    [intros _; simpl; lia | sample_stamps |].
  by exists decoded, out, w'.
Defined.

Lemma draw_points_no_points_witness :
  heap sample_world !! 1%positive = Some (black 3 4) /\
  draw_points sample_tape sample_files round_disk sample_np_capacity
    sample_np_error sample_cv_rejects sample_plt_rejects (Array 1) []
    sample_figsize (-5) None false None false sample_world =
    (Ok (Some (fresh (dom (heap sample_world)))),
     World (<[fresh (dom (heap sample_world)) := black 3 4]> (heap sample_world))
           (rng sample_world) (canvas sample_world)).
Proof.
  assert (H : heap sample_world !! 1%positive = Some (black 3 4)) by reflexivity.
  split; [exact H|].
  exact (draw_points_no_points sample_tape sample_files round_disk
           sample_np_capacity sample_np_error sample_cv_rejects
           sample_plt_rejects sample_world 1 (black 3 4) sample_figsize (-5)
           None None false H).
Defined.

Lemma call_draw_points_defaults_witness :
  heap sample_world !! 1%positive = Some (black 3 4) /\
  (call_draw_points sample_tape sample_files round_disk sample_np_capacity
     sample_np_error sample_cv_rejects sample_plt_rejects (Array 1)
     sample_points (Kwargs Omitted Omitted Omitted Omitted Omitted Omitted)
     sample_world).1
    = Ok None.
Proof.
  assert (H : heap sample_world !! 1%positive = Some (black 3 4)) by reflexivity.
  split; [exact H|].
  rewrite (call_draw_points_defaults sample_tape sample_files round_disk
             sample_np_capacity sample_np_error sample_cv_rejects
             sample_plt_rejects sample_world 1 (black 3 4) sample_points H);
    [reflexivity | sample_stamps | sample_plots].
Defined.

Lemma draw_points_tape_irrelevant_witness :
  (@None rgb = None -> (length sample_points <= 12)%nat) /\
  draw_points sample_tape sample_files round_disk sample_np_capacity
    sample_np_error sample_cv_rejects sample_plt_rejects (Array 1) sample_points
    sample_figsize 0 None false None false sample_world
  = draw_points (fun _ => 0) sample_files round_disk sample_np_capacity
      sample_np_error sample_cv_rejects sample_plt_rejects (Array 1)
      sample_points sample_figsize 0 None false None false sample_world.
Proof.
  assert (H : @None rgb = None -> (length sample_points <= 12)%nat)
    by (intros _; simpl; lia).
  split; [exact H|].
  exact (draw_points_tape_irrelevant sample_tape (fun _ => 0) sample_files
           round_disk sample_np_capacity sample_np_error sample_cv_rejects
           sample_plt_rejects (Array 1) sample_points sample_figsize 0 None
           false None false sample_world H).
Defined.

Lemma draw_points_calls_independent_witness :
  heap sample_world !! 1%positive = Some (black 3 4) /\
  exists out1 w1 out2 w2,
    draw_points sample_tape sample_files round_disk sample_np_capacity
      sample_np_error sample_cv_rejects sample_plt_rejects (Array 1)
      sample_points sample_figsize 0 (Some (250, 50, 50)) false None false
      sample_world = (Ok (Some out1), w1) /\
    draw_points sample_tape sample_files round_disk sample_np_capacity
      sample_np_error sample_cv_rejects sample_plt_rejects (Array 1)
      [(f3_5, f0_75)] sample_figsize 0 (Some (50, 50, 250)) false None false w1
      = (Ok (Some out2), w2) /\
    out1 <> out2 /\
    heap w2 !! 1%positive = Some (black 3 4).
Proof.
  assert (H : heap sample_world !! 1%positive = Some (black 3 4)) by reflexivity.
  split; [exact H|].
  destruct (draw_points_calls_independent sample_tape sample_files round_disk
              sample_np_capacity sample_np_error sample_cv_rejects
              sample_plt_rejects sample_world 1 (black 3 4) sample_points
              [(f3_5, f0_75)] sample_figsize 0 (250, 50, 50) (50, 50, 250) None
              false H)
    as (out1 & w1 & out2 & w2 & Hrun1 & Hrun2 & Hne & Hkeep & _);
    [sample_stamps | sample_stamps |].
  by exists out1, w1, out2, w2.
Defined.

Lemma draw_points_composes_witness :
  heap sample_world !! 1%positive = Some (black 3 4) /\
  exists out1 w1 out2 w2 out w',
    draw_points sample_tape sample_files round_disk sample_np_capacity
      sample_np_error sample_cv_rejects sample_plt_rejects (Array 1)
      sample_points sample_figsize 0 (Some (250, 50, 50)) false None false
      sample_world = (Ok (Some out1), w1) /\
    draw_points sample_tape sample_files round_disk sample_np_capacity
      sample_np_error sample_cv_rejects sample_plt_rejects (Array out1)
      [(f3_5, f0_75)] sample_figsize 0 (Some (250, 50, 50)) false None false w1
      = (Ok (Some out2), w2) /\
    draw_points sample_tape sample_files round_disk sample_np_capacity
      sample_np_error sample_cv_rejects sample_plt_rejects (Array 1)
      (sample_points ++ [(f3_5, f0_75)])
      sample_figsize 0 (Some (250, 50, 50)) false None false sample_world
      = (Ok (Some out), w') /\
    heap w2 !! out2 = heap w' !! out.
Proof.
  assert (H : heap sample_world !! 1%positive = Some (black 3 4)) by reflexivity.
  split; [exact H|].
  destruct (draw_points_composes sample_tape sample_files round_disk
              sample_np_capacity sample_np_error sample_cv_rejects
              sample_plt_rejects sample_world 1 (black 3 4) sample_points
              [(f3_5, f0_75)] sample_figsize 0 (250, 50, 50) None false H)
    as (out1 & w1 & out2 & w2 & out & w' & Hrun1 & Hrun2 & Hrun & _ & Heq);
    [sample_stamps | sample_stamps |].
  by exists out1, w1, out2, w2, out, w'.
Defined.
